(** * FilteredMCPTools: annotation filtering, parameter coercion, initialization

    A shallow embedding of [agents/utils/filtered_mcp_tools.py] and the
    properties of its tool filter, its parameter coercion and its
    [initialize] pass.

    Layout:
    - [Exc]: exceptions and [try]/[except].
    - [Py]: the Python values the module handles (JSON-shaped data coming
      from the MCP server and from the model), with the builtins the source
      calls on them ([==], [in], [bool], [int], [list], [dict], [set]).
    - [Eff]: the state-and-error monad the methods run in.
    - [MCP], [Agno]: the objects the class receives from the protocol and
      the framework.
    - [FilteredMCPTools]: the methods of the class, one definition each.
    - [Terms], [Samples]: the vocabulary of the statements, and the objects
      of the concrete runs.
    - the properties, grouped by method. *)

From Stdlib Require Import ZArith String Ascii List Bool Permutation.
From Stdlib Require Import Floats.SpecFloat.
From stdpp Require Import base gmap strings.
Import ListNotations.

Set Default Proof Using "Type".
Local Open Scope string_scope.
Local Open Scope Z_scope.

(** ** Exceptions and results *)

Module Exc.

(** The exception classes the source distinguishes: [_coerce_parameters]
    catches [(ValueError, TypeError)], every other handler catches
    [Exception].  Only subclasses of [Exception] are modelled. *)
Inductive exn : Type :=
| ValueError
| TypeError
| AttributeError
| KeyError
| OtherException (cls : string).

Inductive result (A : Type) : Type :=
| Ok (a : A)
| Raise (e : exn).
Arguments Ok {A} a.
Arguments Raise {A} e.

Definition rbind {A B} (r : result A) (k : A -> result B) : result B :=
  match r with
  | Ok a => k a
  | Raise e => Raise e
  end.

(** [try: body except classes: handler] on a computation without state. *)
Definition rtry {A} (body : result A) (catches : exn -> bool)
           (handler : exn -> result A) : result A :=
  match body with
  | Ok a => Ok a
  | Raise e => if catches e then handler e else Raise e
  end.

(** [except Exception] *)
Definition any_Exception (_ : exn) : bool := true.

(** [except (ValueError, TypeError)] *)
Definition ValueError_or_TypeError (e : exn) : bool :=
  match e with
  | ValueError | TypeError => true
  | _ => false
  end.

End Exc.
Export Exc.

Declare Scope result_scope.
Delimit Scope result_scope with result.
Notation "x <- r ;; k" := (rbind r (fun x => k))
  (at level 100, r at next level, right associativity) : result_scope.

(** ** Python values *)

Module Py.

(** The values that reach the module: JSON data decoded by the protocol
    layer (tool annotations, input schemas) and keyword arguments produced
    by the model.  A [float] is given by its sign, mantissa and exponent;
    a [dict] keeps its insertion order and has pairwise unequal, hashable
    keys. *)
#[warnings="-register-all"]
Inductive value : Type :=
| VNone
| VBool (b : bool)
| VInt (n : Z)
| VFloat (f : spec_float)
| VStr (s : string)
| VList (l : list value)
| VDict (d : list (value * value)).

(** *** [isinstance] *)

Definition is_str (v : value) : bool :=
  match v with VStr _ => true | _ => false end.
Definition is_list (v : value) : bool :=
  match v with VList _ => true | _ => false end.
Definition is_dict (v : value) : bool :=
  match v with VDict _ => true | _ => false end.
Definition is_None (v : value) : bool :=
  match v with VNone => true | _ => false end.

(** *** Truth value: [bool(v)], [not v], [if v] *)

Definition py_bool (v : value) : bool :=
  match v with
  | VNone => false
  | VBool b => b
  | VInt n => negb (n =? 0)
  | VFloat (S754_zero _) => false
  | VFloat _ => true
  | VStr s => negb (String.eqb s "")
  | VList l => match l with [] => false | _ => true end
  | VDict d => match d with [] => false | _ => true end
  end.

(** *** Equality: [a == b]

    [bool] is a subclass of [int], and [bool], [int] and [float] compare
    by exact numerical value, whatever the type: [True == 1 == 1.0].  A
    number is therefore compared through its value in lowest terms,
    [(-1)^neg * m * 2^e] with [m] odd.  Lists compare element-wise, dicts
    as sets of key/value pairs; values of unrelated types are unequal. *)

Inductive number : Type :=
| Zero
| Dyadic (neg : bool) (m : positive) (e : Z)
| Infinity (neg : bool)
| NaN.

(** [m * 2^e] with the factors of two moved from [m] to [e]. *)
Fixpoint lowest_terms (m : positive) (e : Z) : positive * Z :=
  match m with
  | xO m' => lowest_terms m' (e + 1)
  | _ => (m, e)
  end.

Definition dyadic (neg : bool) (m : positive) (e : Z) : number :=
  let (m', e') := lowest_terms m e in Dyadic neg m' e'.

Definition number_of_int (n : Z) : number :=
  match n with
  | Z0 => Zero
  | Zpos m => dyadic false m 0
  | Zneg m => dyadic true m 0
  end.

Definition number_of_float (f : spec_float) : number :=
  match f with
  | S754_zero _ => Zero
  | S754_infinity s => Infinity s
  | S754_nan => NaN
  | S754_finite s m e => dyadic s m e
  end.

Definition int_of_bool (b : bool) : Z := if b then 1 else 0.

Definition number_of (v : value) : option number :=
  match v with
  | VBool b => Some (number_of_int (int_of_bool b))
  | VInt n => Some (number_of_int n)
  | VFloat f => Some (number_of_float f)
  | _ => None
  end.

(** Equal values; a NaN equals nothing, itself included. *)
Definition number_eqb (x y : number) : bool :=
  match x, y with
  | Zero, Zero => true
  | Dyadic s m e, Dyadic s' m' e' => Bool.eqb s s' && Pos.eqb m m' && Z.eqb e e'
  | Infinity s, Infinity s' => Bool.eqb s s'
  | _, _ => false
  end.

Fixpoint py_eq (a b : value) {struct a} : bool :=
  match number_of a, number_of b with
  | Some x, Some y => number_eqb x y
  | Some _, None | None, Some _ => false
  | None, None =>
      match a, b with
      | VNone, VNone => true
      | VStr s, VStr t => String.eqb s t
      | VList l, VList m =>
          (fix eq_items (l m : list value) {struct l} : bool :=
             match l, m with
             | [], [] => true
             | x :: l', y :: m' => py_eq x y && eq_items l' m'
             | _, _ => false
             end) l m
      | VDict d, VDict e =>
          Nat.eqb (length d) (length e) &&
          (fix all_items (d : list (value * value)) {struct d} : bool :=
             match d with
             | [] => true
             | (k, x) :: d' =>
                 (fix find (e : list (value * value)) : bool :=
                    match e with
                    | [] => false
                    | (k', y) :: e' => if py_eq k k' then py_eq x y else find e'
                    end) e
                 && all_items d'
             end) d
      | _, _ => false
      end
  end.

(** [a != b] *)
Definition py_ne (a b : value) : bool := negb (py_eq a b).

(** *** Hashing

    [hash(v)] raises [TypeError] on a list or a dict; equal hashable
    values have equal hashes, so a set or dict finds an element exactly
    when it holds one that compares equal. *)
Definition hashable (v : value) : bool :=
  match v with
  | VList _ | VDict _ => false
  | _ => true
  end.

(** *** Scalars

    The scalars of the data: [None], a boolean, a number, a string.  A
    value carries no identity here, and Python's [in], [set] and the
    comparison of lists look at identity before [==]; the two ways differ
    on one value only, a NaN, which is not equal to itself and yet found
    where the same object is looked for.  The properties that depend on
    membership are therefore stated on scalars that are not NaN. *)
Definition is_nan (v : value) : bool :=
  match v with
  | VFloat S754_nan => true
  | _ => false
  end.

Definition scalar (v : value) : bool := hashable v && negb (is_nan v).

(** *** Lists: [x in l]

    Membership by [==]; see the remark on identity above. *)

Definition list_contains (l : list value) (x : value) : bool :=
  existsb (fun e => py_eq e x) l.

(** *** Sets: [set(l)] and [s & t]

    A set is kept as the list of its elements, without two equal ones;
    elements are told apart by [==], as for membership. *)

Definition set_add (s : list value) (x : value) : result (list value) :=
  if hashable x then
    Ok (if list_contains s x then s else (s ++ [x])%list)
  else Raise TypeError.

Fixpoint set_add_all (s : list value) (l : list value) : result (list value) :=
  match l with
  | [] => Ok s
  | x :: l' => (s' <- set_add s x ;; set_add_all s' l')%result
  end.

Definition py_set (l : list value) : result (list value) := set_add_all [] l.

Definition set_and (s t : list value) : list value :=
  List.filter (list_contains t) s.

(** *** Dicts: [k in d], [d[k]], [d.get(k, default)], [d[k] = v] *)

Fixpoint dict_lookup (d : list (value * value)) (k : value) : option value :=
  match d with
  | [] => None
  | (k', x) :: d' => if py_eq k' k then Some x else dict_lookup d' k
  end.

Fixpoint dict_set (d : list (value * value)) (k x : value) : list (value * value) :=
  match d with
  | [] => [(k, x)]
  | (k', y) :: d' => if py_eq k' k then (k', x) :: d' else (k', y) :: dict_set d' k x
  end.

(** *** Strings *)

Fixpoint is_substring (s t : string) : bool :=
  String.prefix s t ||
  match t with
  | EmptyString => false
  | String _ t' => is_substring s t'
  end.

Definition chars (s : string) : list value :=
  map (fun c => VStr (String c EmptyString)) (list_ascii_of_string s).

Definition lower_ascii (c : ascii) : ascii :=
  let n := nat_of_ascii c in
  if (65 <=? n)%nat && (n <=? 90)%nat then ascii_of_nat (n + 32) else c.

(** [s.lower()], on the code points below 256 that a [string] holds: the
    letters outside ASCII never map into ASCII, and the source only
    compares the result with ASCII words. *)
Definition lower (s : string) : string :=
  string_of_list_ascii (map lower_ascii (list_ascii_of_string s)).

(** *** The [in] operator on an arbitrary container *)

Definition py_contains (container x : value) : result bool :=
  match container with
  | VList l => Ok (list_contains l x)
  | VDict d =>
      if hashable x then Ok (match dict_lookup d x with Some _ => true | None => false end)
      else Raise TypeError
  | VStr t =>
      match x with
      | VStr s => Ok (is_substring s t)
      | _ => Raise TypeError
      end
  | _ => Raise TypeError
  end.

(** [container[key]] with a string as key, as the source uses it
    ([properties[key]]): the value under the key in a dict, [KeyError]
    when there is none.  A list or a string takes no string as index, and
    no other value has items: [TypeError]. *)
Definition py_getitem (container : value) (key : string) : result value :=
  match container with
  | VDict d =>
      match dict_lookup d (VStr key) with
      | Some x => Ok x
      | None => Raise KeyError
      end
  | _ => Raise TypeError
  end.

(** [obj.get(k, default)]: only a dict has the method. *)
Definition py_get (obj k default : value) : result value :=
  match obj with
  | VDict d =>
      if hashable k then
        Ok (match dict_lookup d k with Some x => x | None => default end)
      else Raise TypeError
  | _ => Raise AttributeError
  end.

(** *** [list(v)] *)

Definition py_list (v : value) : result value :=
  match v with
  | VList l => Ok (VList l)
  | VStr s => Ok (VList (chars s))
  | VDict d => Ok (VList (map fst d))
  | VNone | VBool _ | VInt _ | VFloat _ => Raise TypeError
  end.

(** *** [dict(v)]

    From a dict, a copy; from an iterable, each element must itself be an
    iterable of exactly two items, the first one hashable. *)

Definition dict_add_pair (d : list (value * value)) (item : value)
  : result (list (value * value)) :=
  match py_list item with
  | Raise _ => Raise TypeError
  | Ok (VList [k; x]) =>
      if hashable k then Ok (dict_set d k x) else Raise TypeError
  | Ok _ => Raise ValueError
  end.

Fixpoint dict_add_pairs (d : list (value * value)) (items : list value)
  : result (list (value * value)) :=
  match items with
  | [] => Ok d
  | item :: items' => (d' <- dict_add_pair d item ;; dict_add_pairs d' items')%result
  end.

Definition py_dict (v : value) : result value :=
  match v with
  | VDict d => Ok (VDict d)
  | _ =>
      (items <- py_list v ;;
       match items with
       | VList l => (d <- dict_add_pairs [] l ;; Ok (VDict d))
       | _ => Raise TypeError
       end)%result
  end.

(** *** [int(s)] on a string, base 10

    Surrounding whitespace is dropped, then an optional sign, then decimal
    digits that may be grouped by single underscores.  Anything else is a
    [ValueError].  So is a number of more digits than the interpreter
    allows: with the limit [sys.get_int_max_str_digits()] set (not [0]),
    a string of more than 640 digits and more than the limit is refused,
    leading zeros counted.  The limit is 4300 unless the program or the
    environment changes it, and [0], no limit, in the interpreters that do
    not have one. *)

Definition is_space (c : ascii) : bool :=
  let n := nat_of_ascii c in
  ((9 <=? n) && (n <=? 13) || (n =? 32) || (n =? 133) || (n =? 160))%nat.

Definition digit_of (c : ascii) : option Z :=
  let n := nat_of_ascii c in
  if ((48 <=? n) && (n <=? 57))%nat then Some (Z.of_nat n - 48) else None.

Fixpoint lstrip (l : list ascii) : list ascii :=
  match l with
  | c :: l' => if is_space c then lstrip l' else l
  | [] => []
  end.

Definition strip (l : list ascii) : list ascii :=
  rev (lstrip (rev (lstrip l))).

(** [digits acc after_digit l]: the number read from [l], continuing
    [acc]; [after_digit] tells whether the previous character was a
    digit, the only place where an underscore or the end may stand. *)
Fixpoint digits (acc : Z) (after_digit : bool) (l : list ascii) : option Z :=
  match l with
  | [] => if after_digit then Some acc else None
  | c :: l' =>
      match digit_of c with
      | Some d => digits (10 * acc + d) true l'
      | None =>
          if Ascii.eqb c "_"%char && after_digit then digits acc false l'
          else None
      end
  end.

(** The number of digits among the characters. *)
Fixpoint count_digits (l : list ascii) : Z :=
  match l with
  | [] => 0
  | c :: l' =>
      match digit_of c with
      | Some _ => 1 + count_digits l'
      | None => count_digits l'
      end
  end.

(** The threshold under which the interpreter does not look at the limit
    ([sys.int_info.str_digits_check_threshold]). *)
Definition str_digits_check_threshold : Z := 640.

(** More digits than [int] converts, under the limit [max_str_digits]. *)
Definition too_many_digits (max_str_digits : Z) (l : list ascii) : bool :=
  (str_digits_check_threshold <? count_digits l)
  && (0 <? max_str_digits)
  && (max_str_digits <? count_digits l).

Definition int_of_str (max_str_digits : Z) (s : string) : option Z :=
  match strip (list_ascii_of_string s) with
  | c :: l =>
      match (if Ascii.eqb c "-"%char then option_map Z.opp (digits 0 false l)
             else if Ascii.eqb c "+"%char then digits 0 false l
             else digits 0 false (c :: l)) with
      | Some n => if too_many_digits max_str_digits (c :: l) then None else Some n
      | None => None
      end
  | [] => None
  end.

(** *** The builtins taken from the interpreter

    [float(s)] on a string ([None] stands for its [ValueError]) and
    [str(v)] on a value that is not a string are the interpreter's own
    conversions, and [int_max_str_digits] is the limit it puts on the
    digits of [int(s)]; the properties below hold whatever they are. *)
Record runtime : Type := {
  float_of_str : string -> option spec_float;
  str_of : value -> string;
  int_max_str_digits : Z;
}.

Definition py_int (rt : runtime) (s : string) : result value :=
  match int_of_str (int_max_str_digits rt) s with
  | Some n => Ok (VInt n)
  | None => Raise ValueError
  end.

Definition py_float (rt : runtime) (s : string) : result value :=
  match float_of_str rt s with
  | Some f => Ok (VFloat f)
  | None => Raise ValueError
  end.

Definition py_str (rt : runtime) (v : value) : value :=
  match v with
  | VStr s => VStr s
  | _ => VStr (str_of rt v)
  end.

End Py.
Export Py.

(** ** State and errors: the monad of the methods *)

Module Eff.

Section Monad.
Context {S : Type}.

(** A method maps the state before the call to its outcome (a value or
    a raised exception) and the state after: what was written before an
    exception stays written. *)
Definition M (A : Type) : Type := S -> result A * S.

Definition ret {A} (a : A) : M A := fun s => (Ok a, s).

Definition raise {A} (e : exn) : M A := fun s => (Raise e, s).

Definition lift {A} (r : result A) : M A := fun s => (r, s).

Definition bind {A B} (m : M A) (k : A -> M B) : M B :=
  fun s =>
    match m s with
    | (Ok a, s') => k a s'
    | (Raise e, s') => (Raise e, s')
    end.

Definition get : M S := fun s => (Ok s, s).

Definition modify (f : S -> S) : M unit := fun s => (Ok tt, f s).

(** [try: body except catches as e: handler e] *)
Definition try_except {A} (body : M A) (catches : exn -> bool)
           (handler : exn -> M A) : M A :=
  fun s =>
    match body s with
    | (Ok a, s') => (Ok a, s')
    | (Raise e, s') => if catches e then handler e s' else (Raise e, s')
    end.

Definition when (b : bool) (m : M unit) : M unit :=
  if b then m else ret tt.

Definition outcome {A} (m : M A) (s : S) : result A := fst (m s).
Definition after {A} (m : M A) (s : S) : S := snd (m s).
End Monad.

Arguments M : clear implicits.

End Eff.
Export Eff.

Declare Scope eff_scope.
Delimit Scope eff_scope with eff.
Notation "x <- m ;; k" := (bind m (fun x => k))
  (at level 100, m at next level, right associativity) : eff_scope.
Notation "m ;;; k" := (bind m (fun _ => k))
  (at level 100, right associativity) : eff_scope.

(** ** What the protocol hands over *)

Module MCP.

(** The outcome of reading an attribute of a Python object: its value, an
    [AttributeError] because there is none, or another exception raised by
    the access (a property, a [__getattr__]). *)
Inductive attr (A : Type) : Type :=
| Attr (a : A)
| NoAttr
| AttrRaises (e : exn).
Arguments Attr {A} a.
Arguments NoAttr {A}.
Arguments AttrRaises {A} e.

(** [obj.name] *)
Definition read {A} (a : attr A) : result A :=
  match a with
  | Attr x => Ok x
  | NoAttr => Raise AttributeError
  | AttrRaises e => Raise e
  end.

(** [hasattr(obj, name)]: only an [AttributeError] means no. *)
Definition hasattr {A} (a : attr A) : result bool :=
  match a with
  | Attr _ => Ok true
  | NoAttr | AttrRaises AttributeError => Ok false
  | AttrRaises e => Raise e
  end.

(** [getattr(obj, name, default)] *)
Definition getattr {A} (a : attr A) (default : A) : result A :=
  match a with
  | Attr x => Ok x
  | NoAttr | AttrRaises AttributeError => Ok default
  | AttrRaises e => Raise e
  end.

(** The object held in [tool.annotations], as far as the filter looks at
    it: its truth value and its attributes.  [None] is the object that is
    false and has none of the attributes asked for. *)
Record annotations_object : Type := {
  truth : result bool;
  attribute : string -> attr value;
}.

Definition None_object : annotations_object :=
  {| truth := Ok false; attribute := fun _ => NoAttr |}.

Record Tool : Type := {
  name : string;
  description : value;
  inputSchema : value;
  annotations : attr annotations_object;
}.

(** The session is remote: what [initialize()] and [list_tools()] answer
    may differ from one round trip to the next, so each is given by the
    number of calls made before. *)
Record ClientSession : Type := {
  session_initialize : nat -> result unit;
  list_tools : nat -> result (list Tool);
}.

End MCP.
Export MCP.

(** ** What the framework provides *)

Module Agno.

(** Keyword arguments: a dict with string keys, in insertion order. *)
Definition kwargs : Type := list (string * value).

Fixpoint kw_set (d : kwargs) (k : string) (x : value) : kwargs :=
  match d with
  | [] => [(k, x)]
  | (k', y) :: d' =>
      if String.eqb k' k then (k', x) :: d' else (k', y) :: kw_set d' k x
  end.

Fixpoint kw_get (d : kwargs) (k : string) : option value :=
  match d with
  | [] => None
  | (k', y) :: d' => if String.eqb k' k then Some y else kw_get d' k
  end.

(** The dict without the key [k]. *)
Definition kw_del (d : kwargs) (k : string) : kwargs :=
  List.filter (fun kv => negb (String.eqb (fst kv) k)) d.

(** What calling a tool's entrypoint gives back: a coroutine, awaited to a
    value or an exception, or an async generator, which yields items and
    then ends or raises. *)
Inductive call_result : Type :=
| Coroutine (r : result value)
| AsyncGen (items : list value) (ending : option exn).

Definition Entrypoint : Type := kwargs -> call_result.

(** The closure [coercing_entrypoint] built by
    [create_coercing_entrypoint(self_ref, schema, original_fn)], kept as
    the variables it closes over. *)
Record coercing : Type := {
  schema : value;
  original_fn : Entrypoint;
}.

Record Function : Type := {
  f_name : string;
  f_description : value;
  f_parameters : value;
  f_entrypoint : coercing;
  skip_entrypoint_processing : bool;
}.

(** The framework calls made by [initialize]; each may raise. *)
Record framework : Type := {
  _check_tools_filters :
    list string -> option (list string) -> option (list string) -> result unit;
  get_entrypoint_for_tool : Tool -> result Entrypoint;
  Function_validate : string -> value -> value -> result unit;
}.

(** [Function(name=..., description=..., parameters=..., entrypoint=...,
    skip_entrypoint_processing=True)] *)
Definition Function_new (fw : framework) (n : string) (d p : value)
           (e : coercing) : result Function :=
  (_ <- Function_validate fw n d p ;;
   Ok {| f_name := n; f_description := d; f_parameters := p;
         f_entrypoint := e; skip_entrypoint_processing := true |})%result.

End Agno.
Export Agno.

(** ** The class *)

Module FilteredMCPTools.

(** A rule of [annotation_filters]: a callable, or a plain value (a list
    or a primitive). *)
Inductive filter_value : Type :=
| Callable (f : value -> result value)
| Plain (v : value).

(** The attributes set by [__init__] and only read afterwards. *)
Record self_t : Type := {
  annotation_filters : list (string * filter_value);
  custom_filter : option (Tool -> result value);
  debug_filtering : bool;
  toolsets : filter_value;
  include_tools : option (list string);
  exclude_tools : option (list string);
  session : option ClientSession;
  toolkit_name : string;
}.

(** The messages handed to [self.log], by call site, with the values the
    source interpolates into them. *)
Inductive message : Type :=
| ExcludedByCustomFilter (tool : string)
| CustomFilterError (tool : string) (e : exn)
| ExcludedByAnnotation (tool key : string) (annotation_value : value)
| ParameterCoercion (key : string) (before after : value)
| FailedToCoerce (key : string) (e : exn)
| FilteringToolsBy (by_annotations by_custom_filter : bool)
| IncludingTool (tool : string)
| ExcludingTool (tool : string) (annotations_info : list (string * value))
| AnnotationFilteredCount (n : nat)
| FinalFilteredCount (n : nat)
| FunctionRegistered (function toolkit : string)
| FailedToRegister (tool : string) (e : exn)
| ToolkitInitialized (toolkit : string) (n : nat)
| FailedToGetTools (e : exn).

(** The attributes that change, and the effects on the outside: the debug
    log and the round trips made on the session. *)
Record state : Type := {
  functions : gmap string Function;
  _initialized : bool;
  debug_log : list message;
  session_initialize_calls : nat;
  list_tools_calls : nat;
}.

Definition with_functions (f : gmap string Function) (st : state) : state :=
  {| functions := f; _initialized := _initialized st;
     debug_log := debug_log st;
     session_initialize_calls := session_initialize_calls st;
     list_tools_calls := list_tools_calls st |}.

Definition with_initialized (b : bool) (st : state) : state :=
  {| functions := functions st; _initialized := b;
     debug_log := debug_log st;
     session_initialize_calls := session_initialize_calls st;
     list_tools_calls := list_tools_calls st |}.

Definition with_debug_log (l : list message) (st : state) : state :=
  {| functions := functions st; _initialized := _initialized st;
     debug_log := l;
     session_initialize_calls := session_initialize_calls st;
     list_tools_calls := list_tools_calls st |}.

Definition with_session_initialize_calls (n : nat) (st : state) : state :=
  {| functions := functions st; _initialized := _initialized st;
     debug_log := debug_log st;
     session_initialize_calls := n;
     list_tools_calls := list_tools_calls st |}.

Definition with_list_tools_calls (n : nat) (st : state) : state :=
  {| functions := functions st; _initialized := _initialized st;
     debug_log := debug_log st;
     session_initialize_calls := session_initialize_calls st;
     list_tools_calls := n |}.

(** The state the constructors of the base classes leave: no function
    registered, not initialized. *)
Definition fresh : state :=
  {| functions := ∅; _initialized := false; debug_log := [];
     session_initialize_calls := 0; list_tools_calls := 0 |}.

Local Open Scope eff_scope.

(** *** [__init__] *)

Definition __init__
           (annotation_filters : option (list (string * filter_value)))
           (toolsets : option value)
           (custom_filter : option (Tool -> result value))
           (debug_filtering : bool)
           (include_tools exclude_tools : option (list string))
           (session : option ClientSession)
           (toolkit_name : string) : result self_t :=
  match toolsets, annotation_filters with
  | Some _, Some _ => Raise ValueError
  | _, _ =>
      (filters <-
         match annotation_filters, toolsets with
         | Some af, _ => Ok af
         | None, Some ts =>
             (toolsets_list <-
                (if is_str ts then Ok (VList [ts]) else py_list ts) ;;
              Ok [("toolsets", Plain toolsets_list)])
         | None, None => Ok []
         end ;;
       Ok {| annotation_filters := filters;
             custom_filter := custom_filter;
             debug_filtering := debug_filtering;
             toolsets :=
               match List.find (fun kv => String.eqb (fst kv) "toolsets") filters with
               | Some kv => snd kv
               | None => Plain (VList [])
               end;
             include_tools := include_tools;
             exclude_tools := exclude_tools;
             session := session;
             toolkit_name := toolkit_name |})%result
  end.

(** *** [log] *)

Definition log (self : self_t) (msg : message) : M state unit :=
  if debug_filtering self then
    modify (fun st => with_debug_log (debug_log st ++ [msg])%list st)
  else ret tt.

(** *** [_get_annotation_value] *)

Definition _get_annotation_value (self : self_t) (tool : Tool)
           (annotation_key : string) : result value :=
  rtry
    (has <- hasattr (annotations tool) ;;
     truthy <-
       (if has : bool then (a <- read (annotations tool) ;; truth a)
        else Ok false) ;;
     if truthy : bool then
       (a <- read (annotations tool) ;;
        getattr (attribute a annotation_key) VNone)
     else Ok VNone)%result
    any_Exception
    (fun _ => Ok VNone).

(** *** [_annotation_value_matches_filter] *)

Definition _annotation_value_matches_filter (self : self_t)
           (annotation_value : value) (rule : filter_value) : result bool :=
  match rule with
  | Callable f =>
      rtry (r <- f annotation_value ;; Ok (py_bool r))%result
           any_Exception
           (fun _ => Ok false)
  | Plain (VList filter_list) =>
      match annotation_value with
      | VList annotation_list =>
          (sa <- py_set annotation_list ;;
           sf <- py_set filter_list ;;
           Ok (py_bool (VList (set_and sa sf))))%result
      | _ => Ok (list_contains filter_list annotation_value)
      end
  | Plain v => Ok (py_eq annotation_value v)
  end.

(** *** [_should_include_tool] *)

(** The loop over [self.annotation_filters.items()], which returns [False]
    at the first rule that does not match. *)
Fixpoint match_all_filters (self : self_t) (tool : Tool)
         (items : list (string * filter_value)) : M state bool :=
  match items with
  | [] => ret true
  | (annotation_key, rule) :: items' =>
      annotation_value <- lift (_get_annotation_value self tool annotation_key) ;;
      matches <- lift (_annotation_value_matches_filter self annotation_value rule) ;;
      if matches : bool then match_all_filters self tool items'
      else
        (log self (ExcludedByAnnotation (name tool) annotation_key annotation_value) ;;;
         ret false)
  end.

(** The custom filter step: [Some b] when the method returns [b] there,
    [None] when it goes on to the annotation filters. *)
Definition apply_custom_filter (self : self_t) (tool : Tool)
  : M state (option bool) :=
  match custom_filter self with
  | Some f =>
      try_except
        (keep <- lift (f tool) ;;
         if py_bool keep then ret None
         else (log self (ExcludedByCustomFilter (name tool)) ;;; ret (Some false)))
        any_Exception
        (fun e => log self (CustomFilterError (name tool) e) ;;; ret (Some false))
  | None => ret None
  end.

Definition _should_include_tool (self : self_t) (tool : Tool) : M state bool :=
  returned <- apply_custom_filter self tool ;;
  match returned with
  | Some b => ret b
  | None =>
      match annotation_filters self with
      | [] => ret true
      | items => match_all_filters self tool items
      end
  end.

(** *** [_coerce_parameters] *)

(** The conversion chosen by the declared type, inside the [try]: the
    value to store in [coerced[key]], or the exception of the builtin. *)
Definition coerce_value (rt : runtime) (prop_type val : value) : result value :=
  if py_eq prop_type (VStr "number") || py_eq prop_type (VStr "integer") then
    match val with
    | VStr s =>
        if py_eq prop_type (VStr "integer") then py_int rt s else py_float rt s
    | _ => Ok val
    end
  else if py_eq prop_type (VStr "boolean") then
    match val with
    | VStr s => Ok (VBool (existsb (String.eqb (lower s)) ["true"; "1"; "yes"]))
    | _ => Ok (VBool (py_bool val))
    end
  else if py_eq prop_type (VStr "string") then
    Ok (py_str rt val)
  else if py_eq prop_type (VStr "array") then
    if is_list val then Ok val else py_list val
  else if py_eq prop_type (VStr "object") then
    if is_dict val then Ok val else py_dict val
  else Ok val.

(** The loop over [params.items()], with [coerced] as built so far. *)
Fixpoint coerce_items (self : self_t) (rt : runtime) (properties : value)
         (items : kwargs) (coerced : kwargs) : M state kwargs :=
  match items with
  | [] => ret coerced
  | (key, val) :: items' =>
      declared <- lift (py_contains properties (VStr key)) ;;
      if negb declared then
        coerce_items self rt properties items' (kw_set coerced key val)
      else
        prop_schema <- lift (py_getitem properties key) ;;
        prop_type <- lift (py_get prop_schema (VStr "type") VNone) ;;
        if negb (py_bool prop_type) || is_None val then
          coerce_items self rt properties items' (kw_set coerced key val)
        else
          coerced' <-
            try_except
              (new <- lift (coerce_value rt prop_type val) ;;
               when (debug_filtering self && py_ne new val)
                    (log self (ParameterCoercion key val new)) ;;;
               ret (kw_set coerced key new))
              ValueError_or_TypeError
              (fun e =>
                 log self (FailedToCoerce key e) ;;;
                 ret (kw_set coerced key val)) ;;
          coerce_items self rt properties items' coerced'
  end.

Definition _coerce_parameters (self : self_t) (rt : runtime)
           (params : kwargs) (schema : value) : M state kwargs :=
  if negb (py_bool schema) then ret params
  else
    has_properties <- lift (py_contains schema (VStr "properties")) ;;
    if negb has_properties then ret params
    else
      properties <- lift (py_get schema (VStr "properties") (VDict [])) ;;
      coerce_items self rt properties params [].

(** *** [coercing_entrypoint]

    The wrapper registered for a tool, [async def coercing_entrypoint(
    agent=None, **kwargs)]: [agent] is accepted and not passed on; an async
    generator is collected into a list. *)

(** The binding of a call with the positional arguments [args] and the
    keyword arguments [keywords] to the signature: [agent] takes the
    positional argument, or the keyword
    [agent], or [None]; [kwargs] takes the other keywords.  A second
    positional argument, or [agent] given both ways, is a [TypeError] of the
    call. *)
Definition bind_agent (args : list value) (keywords : kwargs)
  : result (value * kwargs) :=
  match args with
  | [] =>
      match kw_get keywords "agent" with
      | Some agent => Ok (agent, kw_del keywords "agent")
      | None => Ok (VNone, keywords)
      end
  | [agent] =>
      match kw_get keywords "agent" with
      | Some _ => Raise TypeError
      | None => Ok (agent, keywords)
      end
  | _ => Raise TypeError
  end.

Definition coercing_entrypoint (self_ref : self_t) (rt : runtime)
           (closure : coercing) (args : list value) (keywords : kwargs)
  : M state value :=
  bound <- lift (bind_agent args keywords) ;;
  let (agent, kw) := bound : value * kwargs in
  coerced_kwargs <- _coerce_parameters self_ref rt kw (schema closure) ;;
  match original_fn closure coerced_kwargs with
  | AsyncGen items None => ret (VList items)
  | AsyncGen _ (Some e) => raise e
  | Coroutine r => lift r
  end.

(** *** [initialize] *)

Definition await_session_initialize (s : ClientSession) : M state unit :=
  fun st =>
    (session_initialize s (session_initialize_calls st),
     with_session_initialize_calls (S (session_initialize_calls st)) st).

Definition await_list_tools (s : ClientSession) : M state (list Tool) :=
  fun st =>
    (list_tools s (list_tools_calls st),
     with_list_tools_calls (S (list_tools_calls st)) st).

Definition is_empty {A} (l : list A) : bool :=
  match l with [] => true | _ => false end.

Definition is_some {A} (o : option A) : bool :=
  match o with Some _ => true | None => false end.

(** [self.annotation_filters or self.custom_filter], as a condition *)
Definition any_filter (self : self_t) : bool :=
  negb (is_empty (annotation_filters self)) || is_some (custom_filter self).

(** The annotation values shown for an excluded tool. *)
Fixpoint annotations_info (self : self_t) (tool : Tool) (keys : list string)
  : result (list (string * value)) :=
  match keys with
  | [] => Ok []
  | annotation_key :: keys' =>
      (annotation_value <- _get_annotation_value self tool annotation_key ;;
       rest <- annotations_info self tool keys' ;;
       Ok ((annotation_key, annotation_value) :: rest))%result
  end.

(** The loop over [available_tools.tools]. *)
Fixpoint filter_by_annotations (self : self_t) (tools : list Tool)
         (annotation_filtered_tools : list Tool) : M state (list Tool) :=
  match tools with
  | [] => ret annotation_filtered_tools
  | tool :: tools' =>
      include <- _should_include_tool self tool ;;
      if include : bool then
        log self (IncludingTool (name tool)) ;;;
        filter_by_annotations self tools' (annotation_filtered_tools ++ [tool])%list
      else
        (if debug_filtering self then
           info <- lift (annotations_info self tool (map fst (annotation_filters self))) ;;
           log self (ExcludingTool (name tool) info)
         else ret tt) ;;;
        filter_by_annotations self tools' annotation_filtered_tools
  end.

(** [tool.name in names] *)
Definition name_in (n : string) (names : list string) : bool :=
  existsb (String.eqb n) names.

(** [self.exclude_tools and tool.name in self.exclude_tools] *)
Definition excluded_by_name (self : self_t) (tool : Tool) : bool :=
  match exclude_tools self with
  | Some ((_ :: _) as names) => name_in (name tool) names
  | _ => false
  end.

(** [self.include_tools is None or tool.name in self.include_tools] *)
Definition included_by_name (self : self_t) (tool : Tool) : bool :=
  match include_tools self with
  | None => true
  | Some names => name_in (name tool) names
  end.

(** The loop over [annotation_filtered_tools]. *)
Fixpoint filter_by_name (self : self_t) (tools : list Tool)
         (final_filtered_tools : list Tool) : list Tool :=
  match tools with
  | [] => final_filtered_tools
  | tool :: tools' =>
      if excluded_by_name self tool then
        filter_by_name self tools' final_filtered_tools
      else if included_by_name self tool then
        filter_by_name self tools' (final_filtered_tools ++ [tool])%list
      else filter_by_name self tools' final_filtered_tools
  end.

(** One turn of the registration loop, with its own [try]. *)
Definition register_tool (fw : framework) (self : self_t) (tool : Tool)
  : M state unit :=
  try_except
    (original_entrypoint <- lift (get_entrypoint_for_tool fw tool) ;;
     let entrypoint :=
       {| schema := inputSchema tool; original_fn := original_entrypoint |} in
     f <- lift (Function_new fw (name tool) (description tool)
                             (inputSchema tool) entrypoint) ;;
     modify (fun st => with_functions (<[f_name f := f]> (functions st)) st) ;;;
     log self (FunctionRegistered (f_name f) (toolkit_name self)))
    any_Exception
    (fun e => log self (FailedToRegister (name tool) e)).

Fixpoint register_tools (fw : framework) (self : self_t) (tools : list Tool)
  : M state unit :=
  match tools with
  | [] => ret tt
  | tool :: tools' =>
      register_tool fw self tool ;;; register_tools fw self tools'
  end.

(** The body of the outer [try]. *)
Definition initialize_body (fw : framework) (self : self_t) : M state unit :=
  match session self with
  | None => raise ValueError
  | Some s =>
      await_session_initialize s ;;;
      available_tools <- await_list_tools s ;;
      when (debug_filtering self && any_filter self)
           (log self (FilteringToolsBy
                        (negb (is_empty (annotation_filters self)))
                        (is_some (custom_filter self)))) ;;;
      annotation_filtered_tools <- filter_by_annotations self available_tools [] ;;
      when (debug_filtering self && any_filter self)
           (log self (AnnotationFilteredCount (length annotation_filtered_tools))) ;;;
      lift (_check_tools_filters fw (map name annotation_filtered_tools)
                                 (include_tools self) (exclude_tools self)) ;;;
      let final_filtered_tools := filter_by_name self annotation_filtered_tools [] in
      log self (FinalFilteredCount (length final_filtered_tools)) ;;;
      register_tools fw self final_filtered_tools ;;;
      log self (ToolkitInitialized (toolkit_name self) (length final_filtered_tools)) ;;;
      modify (with_initialized true)
  end.

Definition initialize (fw : framework) (self : self_t) : M state unit :=
  st <- get ;;
  if _initialized st then ret tt
  else
    try_except (initialize_body fw self)
               any_Exception
               (fun e => log self (FailedToGetTools e) ;;; raise e).

End FilteredMCPTools.
Export FilteredMCPTools.

(** ** Vocabulary of the properties *)

Module Terms.

(** The state after [msgs] went through [self.log]. *)
Definition logged (self : self_t) (msgs : list message) (st : state) : state :=
  if debug_filtering self then with_debug_log (debug_log st ++ msgs)%list st
  else st.

(** A method that computes [r] and logs [msgs], whatever the state. *)
Definition computes {A} (self : self_t) (m : M state A)
           (r : result A) (msgs : list message) : Prop :=
  forall st, m st = (r, logged self msgs st).



(** Two lists have items that compare equal. *)
Definition share_an_item (al fl : list value) : Prop :=
  exists x y, In x al /\ In y fl /\ py_eq x y = true.

(** [d.get(k)] on the items of a dict, [None] when there is no [k]. *)
Definition get_or_None (d : list (value * value)) (k : string) : value :=
  match dict_lookup d (VStr k) with
  | Some x => x
  | None => VNone
  end.

(** What [_coerce_parameters] stores under [key] for the supplied [val],
    [pd] being the items of the schema's [properties]. *)
Definition stored (rt : runtime) (pd : list (value * value))
           (key : string) (val : value) : value :=
  match dict_lookup pd (VStr key) with
  | Some (VDict ps) =>
      if negb (py_bool (get_or_None ps "type")) || is_None val then val
      else
        match coerce_value rt (get_or_None ps "type") val with
        | Ok new => new
        | Raise _ => val
        end
  | _ => val
  end.

(** What it hands to [self.log] on the way. *)
Definition notes (rt : runtime) (pd : list (value * value))
           (key : string) (val : value) : list message :=
  match dict_lookup pd (VStr key) with
  | Some (VDict ps) =>
      if negb (py_bool (get_or_None ps "type")) || is_None val then []
      else
        match coerce_value rt (get_or_None ps "type") val with
        | Ok new => if py_ne new val then [ParameterCoercion key val new] else []
        | Raise e => [FailedToCoerce key e]
        end
  | _ => []
  end.

(** The parse applied to a string under the declared type [ty]:
    [int(s)] for ["integer"], [float(s)] otherwise; [None] when it raises
    [ValueError]. *)
Definition parse (rt : runtime) (ty : string) (s : string) : option value :=
  if String.eqb ty "integer" then option_map VInt (int_of_str (int_max_str_digits rt) s)
  else option_map VFloat (float_of_str rt s).

(** Every declared property the call meets has a dict as its schema. *)
Definition declared_as_dicts (pd : list (value * value)) (params : kwargs) : Prop :=
  forall key val ps,
    In (key, val) params -> dict_lookup pd (VStr key) = Some ps -> is_dict ps = true.

(** The tools a name filter lets through. *)
Definition passes_name_filter (self : self_t) (tool : Tool) : bool :=
  negb (excluded_by_name self tool) && included_by_name self tool.

(** What one turn of the registration loop builds inside its [try]:
    the entrypoint of the tool, wrapped, in a [Function]. *)
Definition build_action (fw : framework) (tool : Tool) : result Function :=
  (original_entrypoint <- get_entrypoint_for_tool fw tool ;;
   Function_new fw (name tool) (description tool) (inputSchema tool)
                {| schema := inputSchema tool;
                   original_fn := original_entrypoint |})%result.

(** The registry after the registration loop went over [tools]. *)
Fixpoint registered (fw : framework) (tools : list Tool)
         (fs : gmap string Function) : gmap string Function :=
  match tools with
  | [] => fs
  | tool :: tools' =>
      registered fw tools'
        match build_action fw tool with
        | Ok f => <[f_name f := f]> fs
        | Raise _ => fs
        end
  end.

(** The messages of the registration loop. *)
Fixpoint registration_log (fw : framework) (self : self_t) (tools : list Tool)
  : list message :=
  match tools with
  | [] => []
  | tool :: tools' =>
      match build_action fw tool with
      | Ok f => FunctionRegistered (f_name f) (toolkit_name self)
      | Raise e => FailedToRegister (name tool) e
      end :: registration_log fw self tools'
  end.

(** The state once the session answered [initialize()] and
    [list_tools()]. *)
Definition fetched (st : state) : state :=
  with_list_tools_calls (S (list_tools_calls st))
    (with_session_initialize_calls (S (session_initialize_calls st)) st).

(** The banner logged before the annotation filter runs. *)
Definition banner (self : self_t) : list message :=
  if any_filter self then
    [FilteringToolsBy (negb (is_empty (annotation_filters self)))
                      (is_some (custom_filter self))]
  else [].

(** The count logged after it. *)
Definition count_note (self : self_t) (n : nat) : list message :=
  if any_filter self then [AnnotationFilteredCount n] else [].

End Terms.
Export Terms.

(** ** Sample objects, for the concrete runs *)

Module Samples.

(** An instance as [__init__] builds it from the given filters. *)
Definition instance (filters : list (string * filter_value))
           (custom : option (Tool -> result value)) (debug : bool)
           (include exclude : option (list string))
           (s : option ClientSession) : self_t :=
  {| annotation_filters := filters; custom_filter := custom;
     debug_filtering := debug;
     toolsets :=
       match List.find (fun kv => String.eqb (fst kv) "toolsets") filters with
       | Some kv => snd kv
       | None => Plain (VList [])
       end;
     include_tools := include; exclude_tools := exclude;
     session := s; toolkit_name := "MCPTools" |}.

(** No filter at all, no debug output, no session. *)
Definition unfiltered : self_t := instance [] None false None None None.

(** [annotation_filters={"toolsets": tags}] *)
Definition by_toolsets (tags : list string) (debug : bool) : self_t :=
  instance [("toolsets", Plain (VList (map VStr tags)))] None debug None None None.

(** A tool whose annotations carry one extra key. *)
Definition annotated (n key : string) (v : value) : Tool :=
  {| name := n; description := VStr "";
     inputSchema := VDict [(VStr "type", VStr "object")];
     annotations :=
       Attr {| truth := Ok true;
               attribute := fun k => if String.eqb k key then Attr v else NoAttr |} |}.

(** A tool with [annotations=None]. *)
Definition bare (n : string) : Tool :=
  {| name := n; description := VStr "";
     inputSchema := VDict [(VStr "type", VStr "object")];
     annotations := Attr None_object |}.

(** A runtime for the runs in which neither [float] nor [str] is called,
    with the interpreter's default limit on the digits of [int]. *)
Definition runtime0 : runtime :=
  {| float_of_str := fun _ => None;
     str_of := fun _ => "";
     int_max_str_digits := 4300 |}.

(** [{"properties": {key: {"type": ty}}}] *)
Definition schema_of (key ty : string) : value :=
  VDict [(VStr "type", VStr "object");
         (VStr "properties", VDict [(VStr key, VDict [(VStr "type", VStr ty)])])].

(** A session that always answers with the same catalogue. *)
Definition serving (tools : list Tool) : ClientSession :=
  {| session_initialize := fun _ => Ok tt;
     list_tools := fun _ => Ok tools |}.

(** A session whose first [list_tools()] fails and whose later ones
    answer. *)
Definition flaky (tools : list Tool) : ClientSession :=
  {| session_initialize := fun _ => Ok tt;
     list_tools := fun n =>
       match n with
       | O => Raise (OtherException "ConnectionError")
       | S _ => Ok tools
       end |}.

(** A framework that accepts every name filter and builds an action for
    every tool but those named in [bad]. *)
Definition failing_on (bad : list string) : framework :=
  {| _check_tools_filters := fun _ _ _ => Ok tt;
     get_entrypoint_for_tool := fun tool =>
       if name_in (name tool) bad then Raise (OtherException "ValidationError")
       else Ok (fun _ => Coroutine (Ok VNone));
     Function_validate := fun _ _ _ => Ok tt |}.

(** An instance without filters on the session [s]. *)
Definition connected (s : ClientSession) : self_t :=
  instance [] None false None None (Some s).

(** A tool of the given toolsets with a title. *)
Definition titled (n : string) (tags : list string) (title : string) : Tool :=
  {| name := n; description := VStr "";
     inputSchema := VDict [(VStr "type", VStr "object")];
     annotations :=
       Attr {| truth := Ok true;
               attribute := fun k =>
                 if String.eqb k "toolsets" then Attr (VList (map VStr tags))
                 else if String.eqb k "title" then Attr (VStr title)
                 else NoAttr |} |}.

(** A tool that carries the three standard hints. *)
Definition hinted (n : string) (readOnly destructive openWorld : bool) : Tool :=
  {| name := n; description := VStr "";
     inputSchema := VDict [(VStr "type", VStr "object")];
     annotations :=
       Attr {| truth := Ok true;
               attribute := fun k =>
                 if String.eqb k "readOnlyHint" then Attr (VBool readOnly)
                 else if String.eqb k "destructiveHint" then Attr (VBool destructive)
                 else if String.eqb k "openWorldHint" then Attr (VBool openWorld)
                 else NoAttr |} |}.

(** The instance a constructor call returns. *)
Definition built (r : result self_t) : self_t :=
  match r with
  | Ok self => self
  | Raise _ => unfiltered
  end.

End Samples.
Export Samples.

(** ** The factory functions of the module *)

Module Factories.

(** The keyword arguments a factory passes on to the constructor through
    [**kwargs]: the constructor's parameters, each at its default ([None],
    [False]) when the caller did not give it. *)
Record keywords : Type := {
  kw_annotation_filters : option (list (string * filter_value));
  kw_toolsets : option value;
  kw_custom_filter : option (Tool -> result value);
  kw_debug_filtering : bool;
  kw_include_tools : option (list string);
  kw_exclude_tools : option (list string);
  kw_session : option ClientSession;
  kw_name : string;
}.

(** No keyword argument given. *)
Definition no_keywords (n : string) : keywords :=
  {| kw_annotation_filters := None; kw_toolsets := None;
     kw_custom_filter := None; kw_debug_filtering := false;
     kw_include_tools := None; kw_exclude_tools := None;
     kw_session := None; kw_name := n |}.

(** [FilteredMCPTools(url=url, transport=transport, toolsets=ts, **kwargs)]:
    a [toolsets] among the keyword arguments is a second value for the
    parameter, a [TypeError] of the call itself. *)
Definition with_toolsets (ts : value) (kw : keywords) : result self_t :=
  match kw_toolsets kw with
  | Some _ => Raise TypeError
  | None =>
      __init__ (kw_annotation_filters kw) (Some ts) (kw_custom_filter kw)
               (kw_debug_filtering kw) (kw_include_tools kw) (kw_exclude_tools kw)
               (kw_session kw) (kw_name kw)
  end.

(** [FilteredMCPTools(url=url, transport=transport, annotation_filters=af,
    **kwargs)] *)
Definition with_annotation_filters (af : list (string * filter_value))
           (kw : keywords) : result self_t :=
  match kw_annotation_filters kw with
  | Some _ => Raise TypeError
  | None =>
      __init__ (Some af) (kw_toolsets kw) (kw_custom_filter kw)
               (kw_debug_filtering kw) (kw_include_tools kw) (kw_exclude_tools kw)
               (kw_session kw) (kw_name kw)
  end.

Definition create_performance_tools (kw : keywords) : result self_t :=
  with_toolsets (VStr "performance") kw.

(** [toolset_map] of [create_sysadmin_tools] *)
Definition toolset_map : list (string * string) :=
  [("discovery", "sysadmin_discovery");
   ("browse", "sysadmin_browse");
   ("search", "sysadmin_search")].

(** [d.get(k, default)] on a dict from strings to strings *)
Fixpoint get_str (d : list (string * string)) (k default : string) : string :=
  match d with
  | [] => default
  | (k', x) :: d' => if String.eqb k' k then x else get_str d' k default
  end.

Definition create_sysadmin_tools (toolset_type : string) (kw : keywords)
  : result self_t :=
  let toolset := get_str toolset_map toolset_type ("sysadmin_" ++ toolset_type) in
  with_toolsets (VStr toolset) kw.

Definition create_multi_toolset_tools (toolsets : list string) (kw : keywords)
  : result self_t :=
  with_toolsets (VList (map VStr toolsets)) kw.

Definition create_custom_filtered_tools (filter_func : Tool -> result value)
           (kw : keywords) : result self_t :=
  match kw_custom_filter kw with
  | Some _ => Raise TypeError
  | None =>
      __init__ (kw_annotation_filters kw) (kw_toolsets kw) (Some filter_func)
               (kw_debug_filtering kw) (kw_include_tools kw) (kw_exclude_tools kw)
               (kw_session kw) (kw_name kw)
  end.

Definition create_annotation_filtered_tools
           (annotation_filters : list (string * filter_value)) (kw : keywords)
  : result self_t :=
  with_annotation_filters annotation_filters kw.




Definition create_safe_tools (kw : keywords) : result self_t :=
  with_annotation_filters
    [("readOnlyHint", Plain (VBool true));
     ("destructiveHint", Plain (VBool false));
     ("openWorldHint", Plain (VBool false))] kw.

(** [lambda title: title and "system" in title.lower()]: a false [title] is
    the result as it is; only a string has [lower]. *)
Definition title_mentions_system (title : value) : result value :=
  if py_bool title then
    match title with
    | VStr s => Ok (VBool (is_substring "system" (lower s)))
    | _ => Raise AttributeError
    end
  else Ok title.

Definition create_system_performance_tools (kw : keywords) : result self_t :=
  with_annotation_filters
    [("toolsets", Plain (VList [VStr "performance"]));
     ("title", Callable title_mentions_system)] kw.

End Factories.
Export Factories.

(** ** The agents that use the class ([agents/agent_ids.py],
    [agents/ibmi_agents.py]) *)

Module Agents.

Inductive AgentID : Type :=
| IBMI_PERFORMANCE_MONITOR
| IBMI_SYSADMIN_DISCOVERY
| IBMI_SYSADMIN_BROWSE
| IBMI_SYSADMIN_SEARCH.

(** [member.value] *)
Definition member_value (member : AgentID) : string :=
  match member with
  | IBMI_PERFORMANCE_MONITOR => "ibmi-performance-monitor"
  | IBMI_SYSADMIN_DISCOVERY => "ibmi-sysadmin-discovery"
  | IBMI_SYSADMIN_BROWSE => "ibmi-sysadmin-browse"
  | IBMI_SYSADMIN_SEARCH => "ibmi-sysadmin-search"
  end.

(** The members, in the order of their definition: what [for member in cls]
    goes through. *)
Definition members : list AgentID :=
  [IBMI_PERFORMANCE_MONITOR; IBMI_SYSADMIN_DISCOVERY;
   IBMI_SYSADMIN_BROWSE; IBMI_SYSADMIN_SEARCH].

(** The loop of [from_agent_id] over the members still to visit. *)
Fixpoint first_with_value (ms : list AgentID) (agent_id : string) : result AgentID :=
  match ms with
  | [] => Raise ValueError
  | member :: ms' =>
      if String.eqb (member_value member) agent_id then Ok member
      else first_with_value ms' agent_id
  end.

Definition from_agent_id (agent_id : string) : result AgentID :=
  first_with_value members agent_id.

Definition all_ids : list string := map member_value members.

(** [__str__] *)
Definition str_of_member (member : AgentID) : string := member_value member.

(** The tools of an agent of [ibmi_agents.py]:
    [FilteredMCPTools(url=..., transport=...,
    annotation_filters={"toolsets": [toolset]},
    debug_filtering=debug_filtering)]. *)
Definition agent_tools (toolset : string) (debug_filtering : bool) (n : string)
  : result self_t :=
  __init__ (Some [("toolsets", Plain (VList [VStr toolset]))]) None None
           debug_filtering None None None n.

(** [performance_tools] of [get_performance_agent], and the like in the
    three other agents. *)
Definition performance_tools (debug_filtering : bool) (n : string) : result self_t :=
  agent_tools "performance" debug_filtering n.


Definition browse_tools (debug_filtering : bool) (n : string) : result self_t :=
  agent_tools "sysadmin_browse" debug_filtering n.

Definition search_tools (debug_filtering : bool) (n : string) : result self_t :=
  agent_tools "sysadmin_search" debug_filtering n.

End Agents.
Export Agents.

(** ** Agent configuration ([infra/config_manager.py],
    [infra/config_helper.py]) *)

Module Config.

Record AgentModelConfig : Type := {
  model : option string;
  enable_reasoning : option bool;
  debug_mode : option bool;
}.

(** [AgentModelConfig()]: the defaults of the fields. *)
Definition AgentModelConfig_new : AgentModelConfig :=
  {| model := None; enable_reasoning := Some true; debug_mode := Some false |}.

(** [agent_config.model = m] *)
Definition with_model (m : option string) (c : AgentModelConfig) : AgentModelConfig :=
  {| model := m; enable_reasoning := enable_reasoning c; debug_mode := debug_mode c |}.

(** The [agents] section of the configuration: its [default_model] and the
    other keys of the section ([model_extra]), one per agent, with the data
    read from the YAML file. *)
Record AgentsConfig : Type := {
  default_model : option string;
  model_extra : option (list (value * value));
}.

(** The manager, as far as these methods read it: the [agents] section of
    the configuration it loaded, if there is one. *)
Record AgentConfigManager : Type := {
  agents : option AgentsConfig;
}.

(** The truth value of an optional string: [None] and [""] are false. *)
Definition str_bool (o : option string) : bool :=
  match o with
  | Some s => negb (String.eqb s "")
  | None => false
  end.

(** The identifier as a string: [agent_id.value] for a member of
    [AgentID]. *)
Definition id_string (agent_id : AgentID + string) : string :=
  match agent_id with
  | inl member => member_value member
  | inr s => s
  end.

(** [self.agent_config.agents.model_extra or {}], then [.get(agent_id)] *)
Definition agent_data_of (section : AgentsConfig) (agent_id : string) : value :=
  let agent_config_dict :=
    match model_extra section with
    | Some d => d
    | None => []
    end in
  match dict_lookup agent_config_dict (VStr agent_id) with
  | Some x => x
  | None => VNone
  end.

(** [get_agent_config]; [model_validate] is the validation of the library,
    which builds the [AgentModelConfig] of an agent from its data or
    raises. *)
Definition get_agent_config
           (model_validate : value -> result AgentModelConfig)
           (self : AgentConfigManager) (agent_id : AgentID + string)
  : result AgentModelConfig :=
  let agent_id := id_string agent_id in
  if negb (name_in agent_id all_ids) then Raise ValueError
  else
    match agents self with
    | None => Ok AgentModelConfig_new
    | Some section =>
        let agent_data := agent_data_of section agent_id in
        if negb (py_bool agent_data) then Ok AgentModelConfig_new
        else
          (agent_config <- model_validate agent_data ;;
           if negb (str_bool (model agent_config)) && str_bool (default_model section)
           then Ok (with_model (default_model section) agent_config)
           else Ok agent_config)%result
    end.

(** [get_agent_model]: the model comes back as it stands in the data. *)
Definition get_agent_model (self : AgentConfigManager) (agent_id : AgentID + string)
  : result value :=
  let agent_id := id_string agent_id in
  if negb (name_in agent_id all_ids) then Raise ValueError
  else
    match agents self with
    | None => Ok (VStr "openai:gpt-4o")
    | Some section =>
        let agent_data := agent_data_of section agent_id in
        let fallback :=
          match default_model section with
          | Some m => if String.eqb m "" then VStr "openai:gpt-4o" else VStr m
          | None => VStr "openai:gpt-4o"
          end in
        match agent_data with
        | VDict d =>
            if py_bool agent_data then
              let m := match dict_lookup d (VStr "model") with
                       | Some x => x
                       | None => VNone
                       end in
              if py_bool m then Ok m else Ok fallback
            else Ok fallback
        | _ => Ok fallback
        end
    end.

(** [apply_agent_config]; a model is a string or a model object of the
    framework. *)
Definition apply_agent_config {Model : Type}
           (model_validate : value -> result AgentModelConfig)
           (agent_id : AgentID) (config_manager : option AgentConfigManager)
           (m : string + Model) (debug : bool) (reasoning : bool)
  : result ((string + Model) * bool * bool) :=
  match config_manager with
  | None => Ok (m, debug, reasoning)
  | Some manager =>
      (agent_config <- get_agent_config model_validate manager (inl agent_id) ;;
       let configured_model :=
         match model agent_config with
         | Some s => if String.eqb s "" then m else inl s
         | None => m
         end in
       let configured_debug :=
         match debug_mode agent_config with
         | Some b => b
         | None => debug
         end in
       let configured_reasoning :=
         match enable_reasoning agent_config with
         | Some b => b
         | None => reasoning
         end in
       Ok (configured_model, configured_debug, configured_reasoning))%result
  end.

End Config.

(** ** Vocabulary of the further properties *)

Module Notions.



(** The decision of [_should_include_tool] in the state [st], an exception
    counting as no. *)
Definition included (self : self_t) (tool : Tool) (st : state) : bool :=
  match outcome (_should_include_tool self tool) st with
  | Ok b => b
  | Raise _ => false
  end.

(** The schema of every declared property among the parameters is a dict. *)
Definition declared_dicts (pd : list (value * value)) (params : kwargs) : bool :=
  forallb (fun kv => match dict_lookup pd (VStr (fst kv)) with
                     | Some ps => is_dict ps
                     | None => true
                     end) params.

(** The parameters with the value stored for each. *)
Definition coerced_of (rt : runtime) (pd : list (value * value)) (params : kwargs)
  : kwargs :=
  map (fun kv => (fst kv, stored rt pd (fst kv) (snd kv))) params.


(** The tools of [tools] named [n] whose action can be built. *)
Definition built_as (fw : framework) (n : string) (tool : Tool) : bool :=
  String.eqb (name tool) n &&
  match build_action fw tool with Ok _ => true | Raise _ => false end.



(** The first of the strings that is there and not empty. *)
Fixpoint first_given (candidates : list (option string)) : option string :=
  match candidates with
  | [] => None
  | Some s :: rest => if String.eqb s "" then first_given rest else Some s
  | None :: rest => first_given rest
  end.

End Notions.
Export Notions.

(** * Properties *)

(** ** Equality and sets of hashable values *)

Section Hashable.

Lemma number_eqb_sym (x y : number) : number_eqb x y = number_eqb y x.
Proof.
  destruct x as [|s m e|s|], y as [|s' m' e'|s'|]; simpl; try reflexivity.
  - rewrite (Pos.eqb_sym m), (Z.eqb_sym e). destruct s, s'; reflexivity.
  - destruct s, s'; reflexivity.
Qed.

Lemma number_eqb_eq (x y : number) : number_eqb x y = true -> x = y.
Proof.
  destruct x, y; simpl; try discriminate; try reflexivity.
  - intros H. apply andb_prop in H as [H He]. apply andb_prop in H as [Hs Hm].
    apply Bool.eqb_prop in Hs. apply Pos.eqb_eq in Hm. apply Z.eqb_eq in He.
    congruence.
  - intros H. apply Bool.eqb_prop in H. congruence.
Qed.

Lemma number_eqb_trans (x y z : number) :
  number_eqb x y = true -> number_eqb y z = true -> number_eqb x z = true.
Proof.
  intros Hxy Hyz. apply number_eqb_eq in Hxy. subst y. exact Hyz.
Qed.

(** On hashable values [==] is symmetric. *)
Lemma py_eq_sym (a b : value) :
  hashable a = true -> hashable b = true -> py_eq a b = py_eq b a.
Proof.
  destruct a, b; simpl; intros; try discriminate; try reflexivity;
    try apply number_eqb_sym.
  apply String.eqb_sym.
Qed.

(** On hashable values [==] is transitive. *)
Lemma py_eq_trans (a b c : value) :
  hashable a = true -> hashable b = true -> hashable c = true ->
  py_eq a b = true -> py_eq b c = true -> py_eq a c = true.
Proof.
  destruct a, b; simpl; intros Ha Hb Hc Hab Hbc; try discriminate;
    destruct c; simpl in *; try discriminate; try reflexivity;
    try (eapply number_eqb_trans; eassumption).
  apply String.eqb_eq in Hab, Hbc. apply String.eqb_eq. congruence.
Qed.

Lemma list_contains_In (l : list value) (x : value) :
  list_contains l x = true <-> exists e, In e l /\ py_eq e x = true.
Proof. unfold list_contains. apply existsb_exists. Qed.

(** [set(l)] succeeds when every item is hashable; the set then holds
    only items of [l], and for each item of [l] either the item itself
    or one equal to it. *)
Lemma set_add_all_ok (l s : list value) :
  forallb hashable l = true ->
  exists s', set_add_all s l = Ok s'
    /\ (forall x, In x s' -> In x s \/ In x l)
    /\ (forall x, In x s -> In x s')
    /\ (forall x, In x l -> In x s' \/ list_contains s' x = true).
Proof.
  revert s. induction l as [|a l IH]; intros s Hl; simpl in *.
  - exists s. repeat split; auto; intros x [].
  - apply andb_prop in Hl as [Ha Hl]. unfold set_add. rewrite Ha. simpl.
    destruct (IH (if list_contains s a then s else (s ++ [a])%list) Hl)
      as (s' & Hs' & Hsub & Hmono & Hall).
    exists s'. split; [exact Hs'|]. split; [|split].
    + intros x Hx. destruct (Hsub x Hx) as [H|H]; [|auto].
      destruct (list_contains s a); [auto|].
      apply in_app_or in H as [H|[H|[]]]; auto.
    + intros x Hx. apply Hmono.
      destruct (list_contains s a); [exact Hx|]. apply in_or_app. auto.
    + intros x [Hx|Hx]; [subst x|auto].
      destruct (list_contains s a) eqn:Hc.
      * right. apply list_contains_In in Hc as (e & He & Hea).
        apply list_contains_In. exists e. split; [apply Hmono; exact He|exact Hea].
      * left. apply Hmono. apply in_or_app. right. left. reflexivity.
Qed.

(** [set(l)] raises [TypeError] when some item is a list or a dict. *)
Lemma set_add_all_unhashable (l s : list value) :
  forallb hashable l = false -> set_add_all s l = Raise TypeError.
Proof.
  revert s. induction l as [|a l IH]; intros s Hl; simpl in *; [discriminate|].
  unfold set_add. destruct (hashable a); simpl in *; [|reflexivity].
  apply IH. exact Hl.
Qed.

Lemma forallb_hashable_In (l : list value) (x : value) :
  forallb hashable l = true -> In x l -> hashable x = true.
Proof. intros H Hx. rewrite forallb_forall in H. auto. Qed.

(** The truth value of [set(a) & set(b)] on hashable items: whether the
    two lists have items that compare equal. *)
Lemma sets_intersect (al fl : list value) :
  forallb hashable al = true -> forallb hashable fl = true ->
  exists sa sf, py_set al = Ok sa /\ py_set fl = Ok sf
    /\ (py_bool (VList (set_and sa sf)) = true
        <-> exists x y, In x al /\ In y fl /\ py_eq x y = true).
Proof.
  intros Ha Hf. unfold py_set.
  destruct (set_add_all_ok al [] Ha) as (sa & Hsa & Suba & _ & Alla).
  destruct (set_add_all_ok fl [] Hf) as (sf & Hsf & Subf & _ & Allf).
  assert (Ina : forall x, In x sa -> In x al)
    by (intros x Hx; destruct (Suba x Hx) as [[]|]; assumption).
  assert (Inf : forall x, In x sf -> In x fl)
    by (intros x Hx; destruct (Subf x Hx) as [[]|]; assumption).
  exists sa, sf. split; [exact Hsa|]. split; [exact Hsf|].
  assert (Hne : py_bool (VList (set_and sa sf)) = true
                <-> exists z, In z sa /\ list_contains sf z = true).
  { unfold set_and. simpl. split.
    - destruct (List.filter (list_contains sf) sa) as [|z r] eqn:E; [discriminate|].
      intros _. exists z. apply filter_In. rewrite E. left. reflexivity.
    - intros (z & Hz & Hc).
      assert (Hin : In z (List.filter (list_contains sf) sa)) by (apply filter_In; auto).
      destruct (List.filter (list_contains sf) sa); [destruct Hin|reflexivity]. }
  rewrite Hne. clear Hne. split.
  - intros (z & Hz & Hc). apply list_contains_In in Hc as (e & He & Hez).
    exists z, e. split; [auto|]. split; [auto|].
    rewrite py_eq_sym; eauto using forallb_hashable_In.
  - intros (x & y & Hx & Hy & Hxy).
    assert (Hhx : hashable x = true) by eauto using forallb_hashable_In.
    assert (Hhy : hashable y = true) by eauto using forallb_hashable_In.
    assert (Hy' : exists e, In e sf /\ py_eq e x = true).
    { destruct (Allf y Hy) as [H|H].
      - exists y. split; [exact H|]. rewrite py_eq_sym; auto.
      - apply list_contains_In in H as (e & He & Hey). exists e. split; [exact He|].
        apply (py_eq_trans e y x); eauto using forallb_hashable_In.
        rewrite py_eq_sym; auto. }
    destruct Hy' as (e & He & Hex).
    destruct (Alla x Hx) as [H|H].
    + exists x. split; [exact H|]. apply list_contains_In. eauto.
    + apply list_contains_In in H as (x' & Hx' & Hx'x).
      exists x'. split; [exact Hx'|]. apply list_contains_In.
      exists e. split; [exact He|].
      apply (py_eq_trans e x x'); eauto using forallb_hashable_In.
      rewrite py_eq_sym; eauto using forallb_hashable_In.
Qed.

End Hashable.

(** ** Logging *)

Section Logging.
Context (self : self_t).

Lemma logged_nil (st : state) : logged self [] st = st.
Proof.
  unfold logged. destruct (debug_filtering self); [|reflexivity].
  destruct st. unfold with_debug_log. simpl. rewrite app_nil_r. reflexivity.
Qed.

Lemma logged_app (l1 l2 : list message) (st : state) :
  logged self l2 (logged self l1 st) = logged self (l1 ++ l2) st.
Proof.
  unfold logged. destruct (debug_filtering self); [|reflexivity].
  unfold with_debug_log. simpl. rewrite app_assoc. reflexivity.
Qed.

Lemma logged_functions l st : functions (logged self l st) = functions st.
Proof. unfold logged. destruct (debug_filtering self); reflexivity. Qed.

Lemma logged_initialized l st : _initialized (logged self l st) = _initialized st.
Proof. unfold logged. destruct (debug_filtering self); reflexivity. Qed.

Lemma logged_list_tools_calls l st :
  list_tools_calls (logged self l st) = list_tools_calls st.
Proof. unfold logged. destruct (debug_filtering self); reflexivity. Qed.

Lemma logged_session_initialize_calls l st :
  session_initialize_calls (logged self l st) = session_initialize_calls st.
Proof. unfold logged. destruct (debug_filtering self); reflexivity. Qed.

Lemma logged_debug_log l st :
  debug_log (logged self l st) =
  if debug_filtering self then (debug_log st ++ l)%list else debug_log st.
Proof. unfold logged. destruct (debug_filtering self); reflexivity. Qed.

Lemma log_run (msg : message) (st : state) :
  log self msg st = (Ok tt, logged self [msg] st).
Proof. unfold log, logged. destruct (debug_filtering self); reflexivity. Qed.

Lemma computes_log (msg : message) : computes self (log self msg) (Ok tt) [msg].
Proof. intros st. apply log_run. Qed.

Lemma computes_ret {A} (a : A) : computes self (ret a) (Ok a) [].
Proof. intros st. unfold ret. rewrite logged_nil. reflexivity. Qed.

Lemma computes_lift {A} (r : result A) : computes self (lift r) r [].
Proof. intros st. unfold lift. rewrite logged_nil. reflexivity. Qed.

Lemma computes_bind {A B} (m : M state A) (k : A -> M state B) a l1 r l2 :
  computes self m (Ok a) l1 -> computes self (k a) r l2 ->
  computes self (bind m k) r (l1 ++ l2).
Proof.
  intros Hm Hk st. unfold bind. rewrite Hm, Hk. rewrite logged_app. reflexivity.
Qed.

Lemma computes_bind_raise {A B} (m : M state A) (k : A -> M state B) e l :
  computes self m (Raise e) l -> computes self (bind m k) (Raise e) l.
Proof. intros Hm st. unfold bind. rewrite Hm. reflexivity. Qed.

End Logging.

(** ** [_get_annotation_value] *)

Lemma get_annotation_value_ok (self : self_t) (tool : Tool) (key : string) :
  exists v, _get_annotation_value self tool key = Ok v.
Proof.
  unfold _get_annotation_value, rtry, any_Exception.
  match goal with |- exists v, match ?b with _ => _ end = _ => destruct b end; eauto.
Qed.

(** C9. Reading an annotation never raises: the result is the value of the
    attribute when [tool.annotations] exists, is true and has the
    attribute; it is [None] when the tool has no [annotations], when the
    object is false (or [None]), when it lacks the attribute, and when any
    of these accesses raises. *)
Theorem get_annotation_value_total (self : self_t) (tool : Tool) (key : string) :
  _get_annotation_value self tool key =
  Ok match annotations tool with
     | Attr a =>
         match truth a with
         | Ok true =>
             match attribute a key with
             | Attr v => v
             | NoAttr | AttrRaises _ => VNone
             end
         | Ok false | Raise _ => VNone
         end
     | NoAttr | AttrRaises _ => VNone
     end.
Proof.
  unfold _get_annotation_value.
  destruct (annotations tool) as [a| |e]; simpl.
  - destruct (truth a) as [[|]|e]; simpl; try reflexivity.
    destruct (attribute a key) as [v| |e]; simpl; try reflexivity.
    destruct e; reflexivity.
  - reflexivity.
  - destruct e; reflexivity.
Qed.


(** ** [_annotation_value_matches_filter] *)

Section Matching.
Context (self : self_t).


Lemma matches_scalar (v r : value) :
  is_list r = false ->
  _annotation_value_matches_filter self v (Plain r) = Ok (py_eq v r).
Proof. destruct r; simpl; intros H; try reflexivity. discriminate. Qed.

Lemma matches_member (v : value) (fl : list value) :
  is_list v = false ->
  _annotation_value_matches_filter self v (Plain (VList fl)) =
  Ok (list_contains fl v).
Proof. destruct v; simpl; intros H; try reflexivity. discriminate. Qed.

Lemma matches_lists (al fl : list value) :
  forallb hashable al = true -> forallb hashable fl = true ->
  exists b, _annotation_value_matches_filter self (VList al) (Plain (VList fl)) = Ok b
            /\ (b = true <-> share_an_item al fl).
Proof.
  intros Ha Hf. destruct (sets_intersect al fl Ha Hf) as (sa & sf & Hsa & Hsf & Hiff).
  cbn [_annotation_value_matches_filter]. rewrite Hsa, Hsf. cbn [rbind].
  eexists. split; [reflexivity|exact Hiff].
Qed.

Lemma matches_lists_unhashable (al fl : list value) :
  forallb hashable al && forallb hashable fl = false ->
  _annotation_value_matches_filter self (VList al) (Plain (VList fl)) =
  Raise TypeError.
Proof.
  intros H. cbn [_annotation_value_matches_filter]. unfold py_set.
  destruct (forallb hashable al) eqn:Ha.
  - destruct (set_add_all_ok al [] Ha) as (sa & -> & _). cbn [rbind].
    rewrite set_add_all_unhashable; [reflexivity|exact H].
  - rewrite set_add_all_unhashable; [reflexivity|exact Ha].
Qed.


End Matching.

Lemma scalar_hashable (v : value) : scalar v = true -> hashable v = true.
Proof. unfold scalar. intros H. apply andb_true_iff in H. exact (proj1 H). Qed.

Lemma scalars_hashable (l : list value) :
  forallb scalar l = true -> forallb hashable l = true.
Proof.
  rewrite !forallb_forall. intros H x Hx. apply scalar_hashable, H, Hx.
Qed.

(** C3. On the annotations and rules of the data (a scalar, that is
    [None], a boolean, a number or a string, or a list of scalars; NaN set
    aside, see the remark on identity): a scalar rule matches exactly when
    the annotation value equals it; a list rule matches a value that is not
    a list exactly when the value is in the list; a list rule matches a
    list value exactly when the two lists share an item.  Off the data,
    when an item on either side of two lists is itself a list or a dict,
    building the sets raises [TypeError]. *)
Theorem annotation_value_matches_filter_spec (self : self_t) :
  (forall v r, hashable r = true ->
     _annotation_value_matches_filter self v (Plain r) = Ok (py_eq v r))
  /\ (forall v fl, scalar v = true ->
        exists b, _annotation_value_matches_filter self v (Plain (VList fl)) = Ok b
                  /\ (b = true <-> exists y, In y fl /\ py_eq y v = true))
  /\ (forall al fl, forallb scalar al = true -> forallb scalar fl = true ->
        exists b, _annotation_value_matches_filter self (VList al) (Plain (VList fl)) = Ok b
                  /\ (b = true <-> share_an_item al fl))
  /\ (forall al fl, forallb hashable al && forallb hashable fl = false ->
        _annotation_value_matches_filter self (VList al) (Plain (VList fl)) =
        Raise TypeError).
Proof.
  split; [|split; [|split]].
  - intros v r Hr. apply matches_scalar. destruct r; try reflexivity; discriminate.
  - intros v fl Hv. apply scalar_hashable in Hv.
    rewrite matches_member by (destruct v; try reflexivity; discriminate).
    eexists. split; [reflexivity|apply list_contains_In].
  - intros al fl Ha Hf. apply matches_lists; apply scalars_hashable; assumption.
  - apply matches_lists_unhashable.
Qed.

(** The instance of C3 given with the claim: the rule
    [{"toolsets": ["a", "b"]}] accepts the annotation [["b", "c"]] and
    rejects [["c", "d"]]. *)
Example toolsets_rule_on_lists :
  _annotation_value_matches_filter unfiltered
    (VList [VStr "b"; VStr "c"]) (Plain (VList [VStr "a"; VStr "b"])) = Ok true
  /\ _annotation_value_matches_filter unfiltered
       (VList [VStr "c"; VStr "d"]) (Plain (VList [VStr "a"; VStr "b"])) = Ok false.
Proof. split; reflexivity. Qed.

(** Off the data: with the annotation [[[1]]] and the rule [[[1]]] the
    two lists share the item [[1]], yet the method does not answer;
    [set([[1]])] raises [TypeError: unhashable type: 'list']. *)
Example list_rule_on_nested_list_raises :
  share_an_item [VList [VInt 1]] [VList [VInt 1]]
  /\ _annotation_value_matches_filter unfiltered
       (VList [VList [VInt 1]]) (Plain (VList [VList [VInt 1]])) = Raise TypeError.
Proof.
  split; [|reflexivity].
  exists (VList [VInt 1]), (VList [VInt 1]). simpl. auto.
Qed.

(** ** [_should_include_tool] *)

Section Inclusion.
Context (self : self_t).

Lemma computes_try_ok {A} (body : M state A) catches handler a l :
  computes self body (Ok a) l ->
  computes self (try_except body catches handler) (Ok a) l.
Proof. intros Hb st. unfold try_except. rewrite Hb. reflexivity. Qed.

Lemma computes_try_caught {A} (body : M state A) catches handler e l1 r l2 :
  computes self body (Raise e) l1 -> catches e = true ->
  computes self (handler e) r l2 ->
  computes self (try_except body catches handler) r (l1 ++ l2).
Proof.
  intros Hb Hc Hh st. unfold try_except. rewrite Hb, Hc, Hh, logged_app.
  reflexivity.
Qed.

(** The custom filter step never raises, and rejects when the filter
    raises or answers false. *)
Lemma apply_custom_filter_computes (tool : Tool) :
  exists msgs,
    computes self (apply_custom_filter self tool)
      (Ok match custom_filter self with
          | None => None
          | Some f =>
              match f tool with
              | Ok keep => if py_bool keep then None else Some false
              | Raise _ => Some false
              end
          end) msgs.
Proof.
  unfold apply_custom_filter. destruct (custom_filter self) as [f|].
  - destruct (f tool) as [keep|e] eqn:Ef.
    + destruct (py_bool keep) eqn:Ek.
      * exists []. apply computes_try_ok.
        replace (@nil message) with (@nil message ++ [])%list by reflexivity.
        eapply computes_bind; [apply computes_lift|]. rewrite Ek. apply computes_ret.
      * eexists. apply computes_try_ok.
        eapply computes_bind; [apply computes_lift|]. rewrite Ek.
        eapply computes_bind; [apply computes_log|apply computes_ret].
    + eexists. eapply computes_try_caught; [|reflexivity|].
      * apply computes_bind_raise. apply computes_lift.
      * eapply computes_bind; [apply computes_log|apply computes_ret].
  - exists []. apply computes_ret.
Qed.

(** The loop over the rules computes a result that does not depend on
    the state. *)
Lemma match_all_filters_computes (tool : Tool) (items : list (string * filter_value)) :
  exists r msgs, computes self (match_all_filters self tool items) r msgs.
Proof.
  induction items as [|[key rule] items IH]; cbn [match_all_filters].
  - exists (Ok true), []. apply computes_ret.
  - destruct (get_annotation_value_ok self tool key) as (v & Hv). rewrite Hv.
    destruct (_annotation_value_matches_filter self v rule) as [[|]|e] eqn:Em.
    + destruct IH as (r & msgs & IH). exists r, ([] ++ [] ++ msgs)%list.
      eapply computes_bind; [apply computes_lift|]. rewrite Em.
      eapply computes_bind; [apply computes_lift|]. exact IH.
    + eexists _, _. eapply computes_bind; [apply computes_lift|]. rewrite Em.
      eapply computes_bind; [apply computes_lift|].
      eapply computes_bind; [apply computes_log|apply computes_ret].
    + eexists _, _. eapply computes_bind; [apply computes_lift|]. rewrite Em.
      apply computes_bind_raise. apply computes_lift.
Qed.


Lemma should_include_tool_computes (tool : Tool) :
  exists r msgs, computes self (_should_include_tool self tool) r msgs.
Proof.
  unfold _should_include_tool.
  destruct (apply_custom_filter_computes tool) as (l1 & H1).
  match type of H1 with computes _ _ (Ok ?o) _ => destruct o as [b|] end.
  - eexists _, _. eapply computes_bind; [exact H1|apply computes_ret].
  - destruct (annotation_filters self) as [|item items] eqn:E.
    + eexists _, _. eapply computes_bind; [exact H1|apply computes_ret].
    + destruct (match_all_filters_computes tool (item :: items)) as (r & l2 & H2).
      eexists _, _. eapply computes_bind; [exact H1|exact H2].
Qed.



(** Without custom filter and without rules every tool is included and
    nothing is logged. *)
Lemma should_include_tool_unfiltered (tool : Tool) :
  custom_filter self = None -> annotation_filters self = [] ->
  forall st, _should_include_tool self tool st = (Ok true, st).
Proof.
  intros Hc Ha st. unfold _should_include_tool, apply_custom_filter.
  rewrite Hc, Ha. reflexivity.
Qed.



End Inclusion.



(** Runs of the two [try] blocks: a custom filter that raises, and a
    callable rule that raises, each reject the tool that an instance
    without filters includes. *)
Example raising_filters_reject :
  outcome (_should_include_tool
             (instance [] (Some (fun _ => Raise ValueError)) false None None None)
             (bare "t")) fresh = Ok false
  /\ outcome (_should_include_tool
                (instance [("readOnlyHint", Callable (fun _ => Raise KeyError))]
                          None false None None None)
                (bare "t")) fresh = Ok false
  /\ outcome (_should_include_tool unfiltered (bare "t")) fresh = Ok true.
Proof. repeat split; reflexivity. Qed.

(** Off the data: the rule [{"toolsets": ["a"]}] on a tool whose
    [toolsets] annotation is [[["a"]]], a list of lists, raises [TypeError]
    out of [_should_include_tool]; the set is built outside any [try]. *)
Example should_include_tool_raises_on_nested_list :
  outcome (_should_include_tool
             (by_toolsets ["a"] false)
             (annotated "t" "toolsets" (VList [VList [VStr "a"]]))) fresh
  = Raise TypeError.
Proof. reflexivity. Qed.

(** ** The annotation filter over a catalogue *)

Section Catalogue.
Context (self : self_t).

Lemma annotations_info_ok (tool : Tool) (keys : list string) :
  exists info, annotations_info self tool keys = Ok info.
Proof.
  induction keys as [|key keys (info & IH)]; cbn [annotations_info]; [eauto|].
  destruct (get_annotation_value_ok self tool key) as (v & ->).
  rewrite IH. simpl. eauto.
Qed.

Lemma excluding_computes (tool : Tool) :
  exists msgs,
    computes self
      (if debug_filtering self then
         bind (lift (annotations_info self tool (map fst (annotation_filters self))))
              (fun info => log self (ExcludingTool (name tool) info))
       else ret tt) (Ok tt) msgs.
Proof.
  destruct (debug_filtering self) eqn:Ed.
  - destruct (annotations_info_ok tool (map fst (annotation_filters self)))
      as (info & ->).
    eexists. eapply computes_bind; [apply computes_lift|apply computes_log].
  - exists []. apply computes_ret.
Qed.

(** The loop computes a result that does not depend on the state, and
    only logs. *)
Lemma filter_by_annotations_computes (tools kept : list Tool) :
  exists r msgs, computes self (filter_by_annotations self tools kept) r msgs.
Proof.
  revert kept. induction tools as [|tool tools IH]; intros kept;
    cbn [filter_by_annotations].
  - exists (Ok kept), []. apply computes_ret.
  - destruct (should_include_tool_computes self tool) as ([[|]|e] & l1 & H1).
    + destruct (IH (kept ++ [tool])%list) as (r & l2 & H2).
      eexists _, _. eapply computes_bind; [exact H1|].
      eapply computes_bind; [apply computes_log|exact H2].
    + destruct (IH kept) as (r & l2 & H2).
      destruct (excluding_computes tool) as (l3 & H3).
      eexists _, _. eapply computes_bind; [exact H1|].
      eapply computes_bind; [exact H3|exact H2].
    + eexists _, _. apply computes_bind_raise. exact H1.
Qed.

(** Without custom filter and without rules the loop keeps the whole
    catalogue, in order. *)
Lemma filter_by_annotations_unfiltered (tools kept : list Tool) :
  custom_filter self = None -> annotation_filters self = [] ->
  computes self (filter_by_annotations self tools kept)
           (Ok (kept ++ tools)%list) (map (fun t => IncludingTool (name t)) tools).
Proof.
  intros Hc Ha. revert kept. induction tools as [|tool tools IH]; intros kept;
    cbn [filter_by_annotations map].
  - rewrite app_nil_r. apply computes_ret.
  - change (IncludingTool (name tool) :: map (fun t => IncludingTool (name t)) tools)
      with ([] ++ [IncludingTool (name tool)]
               ++ map (fun t => IncludingTool (name t)) tools)%list.
    eapply computes_bind.
    + intros st. rewrite should_include_tool_unfiltered by assumption.
      rewrite logged_nil. reflexivity.
    + eapply computes_bind; [apply computes_log|].
      replace (kept ++ tool :: tools)%list with ((kept ++ [tool]) ++ tools)%list
        by (rewrite <- app_assoc; reflexivity).
      apply IH.
Qed.

End Catalogue.

(** C10. With no custom filter and an empty [annotation_filters] every
    tool is included, so the annotation filter returns the catalogue as it
    is; and constructing the instance with neither [annotation_filters]
    nor [toolsets] nor a custom filter gives such an instance. *)
Theorem unfiltered_keeps_every_tool (self : self_t) :
  custom_filter self = None -> annotation_filters self = [] ->
  (forall tool st, outcome (_should_include_tool self tool) st = Ok true)
  /\ (forall tools st, outcome (filter_by_annotations self tools []) st = Ok tools)
  /\ (forall debug include exclude s n,
        exists self', __init__ None None None debug include exclude s n = Ok self'
                      /\ custom_filter self' = None
                      /\ annotation_filters self' = []).
Proof.
  intros Hc Ha. split; [|split].
  - intros tool st. unfold outcome.
    rewrite should_include_tool_unfiltered by assumption. reflexivity.
  - intros tools st. unfold outcome.
    rewrite (filter_by_annotations_unfiltered self tools [] Hc Ha). reflexivity.
  - intros. eexists. split; [reflexivity|]. split; reflexivity.
Qed.

Lemma unfiltered_keeps_every_tool_witness :
  (forall tool st, outcome (_should_include_tool unfiltered tool) st = Ok true)
  /\ (forall tools st, outcome (filter_by_annotations unfiltered tools []) st = Ok tools)
  /\ (forall debug include exclude s n,
        exists self', __init__ None None None debug include exclude s n = Ok self'
                      /\ custom_filter self' = None
                      /\ annotation_filters self' = []).
Proof.
  apply (unfiltered_keeps_every_tool unfiltered); reflexivity.
Defined.

(** ** The include/exclude name filter *)

Section NameFilter.
Context (self : self_t).

Lemma name_in_In (n : string) (names : list string) :
  name_in n names = true <-> In n names.
Proof.
  unfold name_in. rewrite existsb_exists. split.
  - intros (x & Hx & E). apply String.eqb_eq in E. subst. exact Hx.
  - intros H. exists n. split; [exact H|apply String.eqb_refl].
Qed.

Lemma filter_by_name_filter (tools final : list Tool) :
  filter_by_name self tools final =
  (final ++ List.filter (passes_name_filter self) tools)%list.
Proof.
  revert final. induction tools as [|tool tools IH]; intros final;
    cbn [filter_by_name List.filter].
  - rewrite app_nil_r. reflexivity.
  - unfold passes_name_filter at 1.
    destruct (excluded_by_name self tool); cbn [negb andb]; [apply IH|].
    destruct (included_by_name self tool); [|apply IH].
    rewrite IH, <- app_assoc. reflexivity.
Qed.

Lemma excluded_by_name_spec (tool : Tool) :
  excluded_by_name self tool = true <->
  exists names, exclude_tools self = Some names /\ In (name tool) names.
Proof.
  unfold excluded_by_name. destruct (exclude_tools self) as [[|n names]|].
  - split; [discriminate|]. intros (names & E & H).
    inversion E. subst. destruct H.
  - rewrite name_in_In. split; [eauto|]. intros (names' & E & H).
    inversion E. subst. exact H.
  - split; [discriminate|]. intros (names & E & _). discriminate.
Qed.

Lemma included_by_name_spec (tool : Tool) :
  included_by_name self tool = true <->
  forall names, include_tools self = Some names -> In (name tool) names.
Proof.
  unfold included_by_name. destruct (include_tools self) as [names|].
  - rewrite name_in_In. split.
    + intros H names' E. inversion E. subst. exact H.
    + intros H. apply H. reflexivity.
  - split; [discriminate|reflexivity].
Qed.

End NameFilter.

(** C5. The name filter keeps the tools of the annotation-filtered
    catalogue, in their order, that are not named in the exclude list and,
    when there is an include list, are named in it: a name in both lists is
    excluded, and a name missing from the include list is excluded. *)
Theorem filter_by_name_exclude_wins (self : self_t) (tools : list Tool) :
  filter_by_name self tools [] = List.filter (passes_name_filter self) tools
  /\ forall tool,
       In tool (filter_by_name self tools []) <->
       In tool tools
       /\ ~ (exists names, exclude_tools self = Some names /\ In (name tool) names)
       /\ (forall names, include_tools self = Some names -> In (name tool) names).
Proof.
  split; [apply filter_by_name_filter|]. intros tool.
  rewrite filter_by_name_filter. cbn [app]. rewrite filter_In.
  unfold passes_name_filter. rewrite andb_true_iff, negb_true_iff.
  rewrite <- excluded_by_name_spec, <- included_by_name_spec.
  rewrite not_true_iff_false. reflexivity.
Qed.

(** The instance of C5 given with the claim: with [include=["x","y"]] and
    [exclude=["y"]], of the tools [x], [y], [z] only [x] is kept. *)
Example include_x_y_exclude_y :
  filter_by_name (instance [] None false (Some ["x"; "y"]) (Some ["y"]) None)
                 [bare "x"; bare "y"; bare "z"] []
  = [bare "x"].
Proof. reflexivity. Qed.

(** ** [_coerce_parameters] *)

Section Kwargs.

Lemma kw_get_set_same (d : kwargs) (k : string) (x : value) :
  kw_get (kw_set d k x) k = Some x.
Proof.
  induction d as [|[k' y] d IH]; simpl.
  - rewrite String.eqb_refl. reflexivity.
  - destruct (String.eqb k' k) eqn:E; simpl; rewrite E; [reflexivity|exact IH].
Qed.

Lemma kw_get_set_other (d : kwargs) (k k' : string) (x : value) :
  k <> k' -> kw_get (kw_set d k x) k' = kw_get d k'.
Proof.
  intros Hne. induction d as [|[k0 y] d IH]; simpl.
  - destruct (String.eqb k k') eqn:E; [|reflexivity].
    apply String.eqb_eq in E. contradiction.
  - destruct (String.eqb k0 k) eqn:E; simpl.
    + apply String.eqb_eq in E. subst k0.
      destruct (String.eqb k k') eqn:E'; [|reflexivity].
      apply String.eqb_eq in E'. contradiction.
    + rewrite IH. reflexivity.
Qed.

(** Storing one value per item of a dict: each key ends up with the
    value computed from its own item. *)
Lemma kw_get_fold (f : string -> value -> value) (items : kwargs) :
  forall (coerced : kwargs) (key : string) (val : value),
    List.NoDup (map fst items) -> In (key, val) items ->
    kw_get (fold_left (fun c kv => kw_set c (fst kv) (f (fst kv) (snd kv)))
                      items coerced) key
    = Some (f key val).
Proof.
  induction items as [|[k v] items IH]; intros coerced key val Hnd Hin;
    [destruct Hin|].
  cbn [fold_left fst snd map] in *. apply NoDup_cons_iff in Hnd as [Hk Hnd].
  destruct Hin as [E|Hin].
  - inversion E. subst k v. clear E IH.
    assert (Hkeep : forall c, kw_get c key = Some (f key val) ->
              kw_get (fold_left (fun c kv => kw_set c (fst kv) (f (fst kv) (snd kv)))
                                items c) key = Some (f key val)).
    { clear Hnd. induction items as [|[k v] items IH]; intros c Hc; [exact Hc|].
      cbn [fold_left fst snd map] in *. apply IH.
      - intros H. apply Hk. right. exact H.
      - rewrite kw_get_set_other; [exact Hc|].
        intros ->. apply Hk. left. reflexivity. }
    apply Hkeep. apply kw_get_set_same.
  - apply IH; assumption.
Qed.

End Kwargs.

Section Coercion.
Context (self : self_t) (rt : runtime).

Lemma dict_add_pairs_raises (items : list value) :
  forall d e, dict_add_pairs d items = Raise e -> ValueError_or_TypeError e = true.
Proof.
  induction items as [|item items IH]; intros d e; cbn [dict_add_pairs];
    [discriminate|].
  destruct (dict_add_pair d item) as [d'|e'] eqn:E; cbn [rbind].
  - apply IH.
  - intros H. inversion H. subst e'. clear H. unfold dict_add_pair in E.
    destruct (py_list item) as [[| | | | |[|k [|x [|? ?]]]|]|];
      try (inversion E; reflexivity).
    destruct (hashable k); inversion E. reflexivity.
Qed.

Lemma py_dict_raises (v : value) (e : exn) :
  py_dict v = Raise e -> ValueError_or_TypeError e = true.
Proof.
  unfold py_dict.
  destruct v; cbn [py_list rbind]; try (intros H; inversion H; reflexivity).
  - destruct (dict_add_pairs [] (chars s)) eqn:E; cbn [rbind]; [discriminate|].
    intros H. inversion H. subst. eapply dict_add_pairs_raises. exact E.
  - destruct (dict_add_pairs [] l) eqn:E; cbn [rbind]; [discriminate|].
    intros H. inversion H. subst. eapply dict_add_pairs_raises. exact E.
Qed.

(** The conversions only raise what the [except] clause catches. *)
Lemma coerce_value_raises (prop_type val : value) (e : exn) :
  coerce_value rt prop_type val = Raise e -> ValueError_or_TypeError e = true.
Proof.
  unfold coerce_value.
  destruct (py_eq prop_type (VStr "number") || py_eq prop_type (VStr "integer")).
  { destruct val; try discriminate.
    destruct (py_eq prop_type (VStr "integer")).
    - unfold py_int. destruct (int_of_str _ s); intros H; inversion H. reflexivity.
    - unfold py_float. destruct (float_of_str rt s); intros H; inversion H.
      reflexivity. }
  destruct (py_eq prop_type (VStr "boolean")).
  { destruct val; discriminate. }
  destruct (py_eq prop_type (VStr "string")); [discriminate|].
  destruct (py_eq prop_type (VStr "array")).
  { destruct val; cbn [is_list py_list]; intros H; inversion H; reflexivity. }
  destruct (py_eq prop_type (VStr "object")); [|discriminate].
  destruct (is_dict val); [discriminate|]. apply py_dict_raises.
Qed.

Lemma computes_debug_note (c : bool) (msg : message) :
  computes self (when (debug_filtering self && c) (log self msg)) (Ok tt)
           (if c then [msg] else []).
Proof.
  intros st. unfold when, log, logged.
  destruct (debug_filtering self), c; cbn [andb]; try reflexivity.
  unfold ret. f_equal. destruct st. unfold with_debug_log. simpl.
  rewrite app_nil_r. reflexivity.
Qed.

(** The [try] around one conversion: the value stored and the message
    logged. *)
Lemma coerce_one_computes (pd ps : list (value * value)) (key : string)
      (val : value) (coerced : kwargs) :
  dict_lookup pd (VStr key) = Some (VDict ps) ->
  negb (py_bool (get_or_None ps "type")) || is_None val = false ->
  computes self
    (try_except
       (bind (lift (coerce_value rt (get_or_None ps "type") val))
             (fun new =>
                bind (when (debug_filtering self && py_ne new val)
                           (log self (ParameterCoercion key val new)))
                     (fun _ => ret (kw_set coerced key new))))
       ValueError_or_TypeError
       (fun e => bind (log self (FailedToCoerce key e))
                      (fun _ => ret (kw_set coerced key val))))
    (Ok (kw_set coerced key (stored rt pd key val)))
    (notes rt pd key val).
Proof.
  intros Hps Hty. unfold stored, notes. rewrite Hps, Hty.
  destruct (coerce_value rt (get_or_None ps "type") val) as [new|e] eqn:E.
  - apply computes_try_ok.
    replace (if py_ne new val then [ParameterCoercion key val new] else [])
      with ([] ++ (if py_ne new val then [ParameterCoercion key val new] else [])
               ++ [])%list by (rewrite app_nil_r; reflexivity).
    eapply computes_bind; [apply computes_lift|].
    eapply computes_bind; [apply computes_debug_note|apply computes_ret].
  - change [FailedToCoerce key e] with ([] ++ [FailedToCoerce key e] ++ [])%list.
    eapply computes_try_caught.
    + apply computes_bind_raise. apply computes_lift.
    + eapply coerce_value_raises. exact E.
    + eapply computes_bind; [apply computes_log|apply computes_ret].
Qed.

(** The loop stores one value per parameter and raises nothing, provided
    the schema of every declared property it meets is a dict. *)
Lemma coerce_items_computes (pd : list (value * value)) (items : kwargs) :
  forall coerced,
    declared_as_dicts pd items ->
    computes self (coerce_items self rt (VDict pd) items coerced)
      (Ok (fold_left (fun c kv => kw_set c (fst kv) (stored rt pd (fst kv) (snd kv)))
                     items coerced))
      (flat_map (fun kv => notes rt pd (fst kv) (snd kv)) items).
Proof.
  induction items as [|[key val] items IH]; intros coerced Hwf;
    cbn [coerce_items fold_left flat_map fst snd].
  - apply computes_ret.
  - assert (Hwf' : declared_as_dicts pd items)
      by (intros k v ps Hin; apply (Hwf k v ps); right; exact Hin).
    destruct (dict_lookup pd (VStr key)) as [ps|] eqn:Eps.
    + assert (Hd : is_dict ps = true) by (apply (Hwf key val ps); [left|]; auto).
      destruct ps as [| | | | | |ps]; try discriminate. clear Hd.
      assert (E1 : py_contains (VDict pd) (VStr key) = Ok true)
        by (cbn [py_contains hashable]; rewrite Eps; reflexivity).
      assert (E2 : py_getitem (VDict pd) key = Ok (VDict ps))
        by (cbn [py_getitem]; rewrite Eps; reflexivity).
      assert (E3 : py_get (VDict ps) (VStr "type") VNone = Ok (get_or_None ps "type"))
        by reflexivity.
      rewrite E1.
      change (notes rt pd key val ++
              flat_map (fun kv => notes rt pd (fst kv) (snd kv)) items)%list
        with ([] ++ [] ++ [] ++ notes rt pd key val ++
              flat_map (fun kv => notes rt pd (fst kv) (snd kv)) items)%list.
      eapply computes_bind; [apply computes_lift|]. cbv beta. cbn [negb].
      rewrite E2.
      eapply computes_bind; [apply computes_lift|]. cbv beta.
      rewrite E3.
      eapply computes_bind; [apply computes_lift|]. cbv beta.
      destruct (negb (py_bool (get_or_None ps "type")) || is_None val) eqn:Ety.
      * replace (stored rt pd key val) with val
          by (unfold stored; rewrite Eps, Ety; reflexivity).
        replace (notes rt pd key val) with (@nil message)
          by (unfold notes; rewrite Eps, Ety; reflexivity).
        apply IH. exact Hwf'.
      * eapply computes_bind; [apply coerce_one_computes; eassumption|].
        apply IH. exact Hwf'.
    + assert (E1 : py_contains (VDict pd) (VStr key) = Ok false)
        by (cbn [py_contains hashable]; rewrite Eps; reflexivity).
      rewrite E1.
      replace (stored rt pd key val) with val
        by (unfold stored; rewrite Eps; reflexivity).
      replace (notes rt pd key val) with (@nil message)
        by (unfold notes; rewrite Eps; reflexivity).
      change (flat_map (fun kv => notes rt pd (fst kv) (snd kv)) items)
        with ([] ++ flat_map (fun kv => notes rt pd (fst kv) (snd kv)) items)%list.
      eapply computes_bind; [apply computes_lift|]. cbv beta. cbn [negb].
      apply IH. exact Hwf'.
Qed.

(** The whole method, on a schema that is a dict with a dict of
    [properties]. *)
Lemma coerce_parameters_computes (sd pd : list (value * value)) (params : kwargs) :
  dict_lookup sd (VStr "properties") = Some (VDict pd) ->
  declared_as_dicts pd params ->
  computes self (_coerce_parameters self rt params (VDict sd))
    (Ok (fold_left (fun c kv => kw_set c (fst kv) (stored rt pd (fst kv) (snd kv)))
                   params []))
    (flat_map (fun kv => notes rt pd (fst kv) (snd kv)) params).
Proof.
  intros Hp Hwf. unfold _coerce_parameters.
  destruct sd as [|kv sd]; [discriminate|]. cbn [py_bool negb].
  cbn [py_contains hashable py_get]. rewrite Hp.
  change (flat_map (fun kv => notes rt pd (fst kv) (snd kv)) params)
    with ([] ++ [] ++ flat_map (fun kv => notes rt pd (fst kv) (snd kv)) params)%list.
  eapply computes_bind; [apply computes_lift|]. cbn [negb].
  eapply computes_bind; [apply computes_lift|].
  apply coerce_items_computes. exact Hwf.
Qed.

(** The parameter [key] in the result, and the state after the call. *)
Lemma coerce_parameters_lookup (sd pd : list (value * value)) (params : kwargs)
      (key : string) (val : value) (st : state) :
  dict_lookup sd (VStr "properties") = Some (VDict pd) ->
  declared_as_dicts pd params ->
  List.NoDup (map fst params) -> In (key, val) params ->
  exists coerced,
    _coerce_parameters self rt params (VDict sd) st
    = (Ok coerced,
       logged self (flat_map (fun kv => notes rt pd (fst kv) (snd kv)) params) st)
    /\ kw_get coerced key = Some (stored rt pd key val).
Proof.
  intros Hp Hwf Hnd Hin. eexists. split.
  - apply coerce_parameters_computes; assumption.
  - apply (kw_get_fold (stored rt pd)); assumption.
Qed.

End Coercion.




(** C6, as amended. For a parameter declared ["integer"] or ["number"]
    a string is parsed, with [int] or [float]; a value that is not a string
    passes through unchanged; a string that does not parse (for [int]: not
    a decimal number, or one of more digits than the interpreter converts)
    passes through unchanged and the call goes on.  The failure is handed
    to [self.log], which records it only when [debug_filtering] is on:
    without it the call leaves no trace of the failure. *)
Theorem numeric_parameter_coercion
        (self : self_t) (rt : runtime) (sd pd ps : list (value * value))
        (params : kwargs) (key ty : string) (val : value) (st : state) :
  dict_lookup sd (VStr "properties") = Some (VDict pd) ->
  declared_as_dicts pd params ->
  List.NoDup (map fst params) ->
  In (key, val) params ->
  dict_lookup pd (VStr key) = Some (VDict ps) ->
  dict_lookup ps (VStr "type") = Some (VStr ty) ->
  ty = "integer" \/ ty = "number" ->
  exists coerced,
    outcome (_coerce_parameters self rt params (VDict sd)) st = Ok coerced
    /\ kw_get coerced key =
       Some match val with
            | VStr s => match parse rt ty s with Some parsed => parsed | None => val end
            | _ => val
            end
    /\ (debug_filtering self = false ->
        after (_coerce_parameters self rt params (VDict sd)) st = st)
    /\ (debug_filtering self = true ->
        forall s, val = VStr s -> parse rt ty s = None ->
        In (FailedToCoerce key ValueError)
           (debug_log (after (_coerce_parameters self rt params (VDict sd)) st))).
Proof.
  intros Hp Hwf Hnd Hin Hps Hty Hnum.
  destruct (coerce_parameters_lookup self rt sd pd params key val st Hp Hwf Hnd Hin)
    as (coerced & Hrun & Hget).
  assert (Hcv : forall s, coerce_value rt (VStr ty) (VStr s) =
                          match parse rt ty s with
                          | Some parsed => Ok parsed
                          | None => Raise ValueError
                          end).
  { intros s. unfold parse.
    destruct Hnum; subst ty; cbn; unfold py_int, py_float;
      [destruct (int_of_str _ s)|destruct (float_of_str rt s)]; reflexivity. }
  assert (Hty' : negb (py_bool (VStr ty)) = false)
    by (destruct Hnum; subst ty; reflexivity).
  exists coerced. unfold outcome, after. rewrite Hrun. cbn [fst snd].
  split; [reflexivity|]. split; [|split].
  - rewrite Hget. f_equal. unfold stored, get_or_None. rewrite Hps, Hty, Hty'.
    destruct val; try (destruct Hnum; subst ty; reflexivity).
    cbn [orb is_None]. rewrite Hcv. destruct (parse rt ty s); reflexivity.
  - intros Hd. unfold logged. rewrite Hd. reflexivity.
  - intros Hd s -> Hfail. rewrite logged_debug_log, Hd.
    apply in_or_app. right. apply in_flat_map. exists (key, VStr s).
    split; [exact Hin|]. unfold notes, get_or_None. cbn [fst snd].
    rewrite Hps, Hty, Hty'. cbn [orb is_None]. rewrite Hcv, Hfail.
    left. reflexivity.
Qed.

Lemma numeric_parameter_coercion_witness :
  exists coerced,
    outcome (_coerce_parameters (instance [] None true None None None) runtime0
                                [("n", VStr "42")] (schema_of "n" "integer")) fresh
    = Ok coerced
    /\ kw_get coerced "n" = Some (VInt 42)
    /\ (true = false ->
        after (_coerce_parameters (instance [] None true None None None) runtime0
                                  [("n", VStr "42")] (schema_of "n" "integer")) fresh
        = fresh)
    /\ (true = true ->
        forall s, VStr "42" = VStr s -> parse runtime0 "integer" s = None ->
        In (FailedToCoerce "n" ValueError)
           (debug_log
              (after (_coerce_parameters (instance [] None true None None None) runtime0
                                         [("n", VStr "42")] (schema_of "n" "integer"))
                     fresh))).
Proof.
  apply (numeric_parameter_coercion
           (instance [] None true None None None) runtime0
           [(VStr "type", VStr "object");
            (VStr "properties", VDict [(VStr "n", VDict [(VStr "type", VStr "integer")])])]
           [(VStr "n", VDict [(VStr "type", VStr "integer")])]
           [(VStr "type", VStr "integer")]
           [("n", VStr "42")] "n" "integer" (VStr "42") fresh).
  - reflexivity.
  - intros key val ps [H|[]]. inversion H. subst. simpl. intros E. inversion E.
    reflexivity.
  - constructor; [intros []|constructor].
  - left. reflexivity.
  - reflexivity.
  - reflexivity.
  - left. reflexivity.
Defined.

(** The runs of C6 given with the claim: ["42"] becomes [42]; ["abc"]
    stays ["abc"], and with [debug_filtering] on the failure is logged. *)
Example integer_parameter_runs :
  _coerce_parameters (instance [] None true None None None) runtime0
                     [("n", VStr "42")] (schema_of "n" "integer") fresh
  = (Ok [("n", VInt 42)],
     with_debug_log [ParameterCoercion "n" (VStr "42") (VInt 42)] fresh)
  /\ _coerce_parameters (instance [] None true None None None) runtime0
                        [("n", VStr "abc")] (schema_of "n" "integer") fresh
     = (Ok [("n", VStr "abc")],
        with_debug_log [FailedToCoerce "n" ValueError] fresh).
Proof. split; reflexivity. Qed.

(** A run of C6 at the interpreter's limit on digits, 4300 by default:
    4300 zeros are converted to [0]; 4301 zeros are not, the string passes
    through and the failure is logged; with the limit off ([0]) they are
    converted as well. *)
Example integer_digit_limit :
  _coerce_parameters (instance [] None true None None None) runtime0
                     [("n", VStr (string_of_list_ascii (repeat "0"%char 4300)))]
                     (schema_of "n" "integer") fresh
  = (Ok [("n", VInt 0)],
     with_debug_log
       [ParameterCoercion "n" (VStr (string_of_list_ascii (repeat "0"%char 4300)))
                          (VInt 0)] fresh)
  /\ _coerce_parameters (instance [] None true None None None) runtime0
                        [("n", VStr (string_of_list_ascii (repeat "0"%char 4301)))]
                        (schema_of "n" "integer") fresh
     = (Ok [("n", VStr (string_of_list_ascii (repeat "0"%char 4301)))],
        with_debug_log [FailedToCoerce "n" ValueError] fresh)
  /\ int_of_str 0 (string_of_list_ascii (repeat "0"%char 4301)) = Some 0.
Proof. repeat split; vm_compute; reflexivity. Qed.

(** C6 as stated fails: with [debug_filtering] off (the default) the
    argument [{"n": "abc"}] under [{"n": {"type": "integer"}}] passes
    through and nothing is recorded; the state after the call is the state
    before it. *)
Lemma parse_failure_leaves_no_trace :
  _coerce_parameters unfiltered runtime0 [("n", VStr "abc")]
                     (schema_of "n" "integer") fresh
  = (Ok [("n", VStr "abc")], fresh)
  /\ debug_log fresh = [].
Proof. split; reflexivity. Qed.

(** ** [initialize] *)

Section Initialize.
Context (fw : framework) (self : self_t).

Lemma build_action_name (tool : Tool) (f : Function) :
  build_action fw tool = Ok f -> f_name f = name tool.
Proof.
  unfold build_action, Function_new.
  destruct (get_entrypoint_for_tool fw tool); cbn [rbind]; [|discriminate].
  destruct (Function_validate fw _ _ _); cbn [rbind]; [|discriminate].
  intros H. inversion H. reflexivity.
Qed.

(** One turn of the registration loop never raises: it registers the
    action, or logs that it could not. *)
Lemma register_tool_run (tool : Tool) (st : state) :
  register_tool fw self tool st =
  match build_action fw tool with
  | Ok f =>
      (Ok tt,
       logged self [FunctionRegistered (f_name f) (toolkit_name self)]
              (with_functions (<[f_name f := f]> (functions st)) st))
  | Raise e => (Ok tt, logged self [FailedToRegister (name tool) e] st)
  end.
Proof.
  unfold register_tool, build_action, try_except, bind, lift, modify.
  destruct (get_entrypoint_for_tool fw tool) as [ep|e]; cbn [rbind any_Exception].
  - destruct (Function_new fw _ _ _ _) as [f|e]; cbn [any_Exception].
    + rewrite log_run. reflexivity.
    + rewrite log_run. reflexivity.
  - rewrite log_run. reflexivity.
Qed.

Lemma logged_with_functions (msgs : list message) fs (st : state) :
  logged self msgs (with_functions fs st) = with_functions fs (logged self msgs st).
Proof. unfold logged. destruct (debug_filtering self); reflexivity. Qed.

(** The registration loop never raises; it leaves the registry extended
    by the actions that could be built. *)
Lemma register_tools_run (tools : list Tool) :
  forall st,
    register_tools fw self tools st =
    (Ok tt,
     logged self (registration_log fw self tools)
            (with_functions (registered fw tools (functions st)) st)).
Proof.
  induction tools as [|tool tools IH]; intros st;
    cbn [register_tools registered registration_log].
  - unfold ret. rewrite logged_nil. destruct st. reflexivity.
  - unfold bind. rewrite register_tool_run.
    destruct (build_action fw tool) as [f|e]; rewrite IH.
    + f_equal. rewrite logged_functions. cbn [functions with_functions].
      rewrite <- !logged_with_functions.
      change (FunctionRegistered (f_name f) (toolkit_name self)
                :: registration_log fw self tools)
        with ([FunctionRegistered (f_name f) (toolkit_name self)]
                ++ registration_log fw self tools)%list.
      rewrite <- logged_app. rewrite !logged_with_functions. reflexivity.
    + f_equal. rewrite logged_functions.
      rewrite <- !logged_with_functions.
      change (FailedToRegister (name tool) e :: registration_log fw self tools)
        with ([FailedToRegister (name tool) e]
                ++ registration_log fw self tools)%list.
      rewrite <- logged_app. rewrite !logged_with_functions. reflexivity.
Qed.

(** *** The runs of the body of the outer [try] *)

Lemma initialize_body_no_session (st : state) :
  session self = None -> initialize_body fw self st = (Raise ValueError, st).
Proof. intros H. unfold initialize_body. rewrite H. reflexivity. Qed.

Lemma initialize_body_session_fails (s : ClientSession) (e : exn) (st : state) :
  session self = Some s ->
  session_initialize s (session_initialize_calls st) = Raise e ->
  initialize_body fw self st =
  (Raise e, with_session_initialize_calls (S (session_initialize_calls st)) st).
Proof.
  intros Hs Hi. unfold initialize_body. rewrite Hs.
  unfold bind at 1. unfold await_session_initialize. rewrite Hi. reflexivity.
Qed.

Lemma initialize_body_list_fails (s : ClientSession) (e : exn) (st : state) :
  session self = Some s ->
  session_initialize s (session_initialize_calls st) = Ok tt ->
  list_tools s (list_tools_calls st) = Raise e ->
  initialize_body fw self st = (Raise e, fetched st).
Proof.
  intros Hs Hi Hl. unfold initialize_body. rewrite Hs.
  unfold bind at 1. unfold await_session_initialize. rewrite Hi.
  unfold bind at 1. unfold await_list_tools.
  cbn [list_tools_calls with_session_initialize_calls]. rewrite Hl. reflexivity.
Qed.

Lemma computes_banner :
  computes self
    (when (debug_filtering self && any_filter self)
          (log self (FilteringToolsBy (negb (is_empty (annotation_filters self)))
                                      (is_some (custom_filter self)))))
    (Ok tt) (banner self).
Proof. unfold banner. apply computes_debug_note. Qed.

Lemma computes_count_note (n : nat) :
  computes self
    (when (debug_filtering self && any_filter self)
          (log self (AnnotationFilteredCount n)))
    (Ok tt) (count_note self n).
Proof. unfold count_note. apply computes_debug_note. Qed.

(** The body from the point where the catalogue is there. *)
Lemma initialize_body_fetched (s : ClientSession) (tools : list Tool) (st : state) :
  session self = Some s ->
  session_initialize s (session_initialize_calls st) = Ok tt ->
  list_tools s (list_tools_calls st) = Ok tools ->
  initialize_body fw self st =
  bind (when (debug_filtering self && any_filter self)
          (log self (FilteringToolsBy (negb (is_empty (annotation_filters self)))
                                      (is_some (custom_filter self)))))
    (fun _ =>
     bind (filter_by_annotations self tools [])
       (fun annotation_filtered_tools =>
        bind (when (debug_filtering self && any_filter self)
                (log self (AnnotationFilteredCount (length annotation_filtered_tools))))
          (fun _ =>
           bind (lift (_check_tools_filters fw (map name annotation_filtered_tools)
                         (include_tools self) (exclude_tools self)))
             (fun _ =>
              bind (log self (FinalFilteredCount
                                (length (filter_by_name self annotation_filtered_tools []))))
                (fun _ =>
                 bind (register_tools fw self
                         (filter_by_name self annotation_filtered_tools []))
                   (fun _ =>
                    bind (log self (ToolkitInitialized (toolkit_name self)
                            (length (filter_by_name self annotation_filtered_tools []))))
                      (fun _ => modify (with_initialized true))))))))
    (fetched st).
Proof.
  intros Hs Hi Hl. unfold initialize_body. rewrite Hs.
  unfold bind at 1. unfold await_session_initialize. rewrite Hi.
  unfold bind at 1. unfold await_list_tools.
  cbn [list_tools_calls with_session_initialize_calls]. rewrite Hl. reflexivity.
Qed.

Lemma initialize_body_filter_fails (s : ClientSession) (tools : list Tool)
      (e : exn) (msgs : list message) (st : state) :
  session self = Some s ->
  session_initialize s (session_initialize_calls st) = Ok tt ->
  list_tools s (list_tools_calls st) = Ok tools ->
  computes self (filter_by_annotations self tools []) (Raise e) msgs ->
  initialize_body fw self st =
  (Raise e, logged self (banner self ++ msgs) (fetched st)).
Proof.
  intros Hs Hi Hl Hf. rewrite (initialize_body_fetched s tools st Hs Hi Hl).
  apply (computes_bind self _ _ tt); [apply computes_banner|].
  apply computes_bind_raise. exact Hf.
Qed.

Lemma initialize_body_check_fails (s : ClientSession) (tools filtered : list Tool)
      (e : exn) (msgs : list message) (st : state) :
  session self = Some s ->
  session_initialize s (session_initialize_calls st) = Ok tt ->
  list_tools s (list_tools_calls st) = Ok tools ->
  computes self (filter_by_annotations self tools []) (Ok filtered) msgs ->
  _check_tools_filters fw (map name filtered) (include_tools self) (exclude_tools self)
  = Raise e ->
  initialize_body fw self st =
  (Raise e,
   logged self (banner self ++ msgs ++ count_note self (length filtered))
          (fetched st)).
Proof.
  intros Hs Hi Hl Hf Hc. rewrite (initialize_body_fetched s tools st Hs Hi Hl).
  apply (computes_bind self _ _ tt); [apply computes_banner|].
  eapply computes_bind; [exact Hf|]. cbv beta. rewrite Hc.
  replace (count_note self (length filtered))
    with (count_note self (length filtered) ++ [])%list by apply app_nil_r.
  apply (computes_bind self _ _ tt); [apply computes_count_note|].
  apply computes_bind_raise. apply computes_lift.
Qed.

Lemma initialize_body_registers (s : ClientSession) (tools filtered : list Tool)
      (msgs : list message) (st : state) :
  session self = Some s ->
  session_initialize s (session_initialize_calls st) = Ok tt ->
  list_tools s (list_tools_calls st) = Ok tools ->
  computes self (filter_by_annotations self tools []) (Ok filtered) msgs ->
  _check_tools_filters fw (map name filtered) (include_tools self) (exclude_tools self)
  = Ok tt ->
  exists st',
    initialize_body fw self st = (Ok tt, st')
    /\ _initialized st' = true
    /\ functions st' =
       registered fw (filter_by_name self filtered []) (functions st)
    /\ list_tools_calls st' = S (list_tools_calls st).
Proof.
  intros Hs Hi Hl Hf Hc. rewrite (initialize_body_fetched s tools st Hs Hi Hl).
  unfold bind at 1. rewrite computes_banner.
  unfold bind at 1. rewrite Hf.
  unfold bind at 1. rewrite computes_count_note.
  unfold bind at 1. unfold lift at 1. rewrite Hc.
  unfold bind at 1. rewrite log_run.
  unfold bind at 1. rewrite register_tools_run.
  unfold bind at 1. rewrite log_run.
  unfold modify. eexists. split; [reflexivity|].
  repeat (progress cbn [_initialized functions list_tools_calls
                        with_initialized with_functions]
          || rewrite logged_functions || rewrite logged_list_tools_calls).
  repeat split; reflexivity.
Qed.

(** When the body raises, the registry and the flag are as before. *)
Lemma initialize_body_raises (e : exn) (st st' : state) :
  initialize_body fw self st = (Raise e, st') ->
  functions st' = functions st /\ _initialized st' = _initialized st.
Proof.
  destruct (session self) as [s|] eqn:Hs.
  2:{ rewrite initialize_body_no_session by exact Hs.
      intros H. inversion H. auto. }
  destruct (session_initialize s (session_initialize_calls st)) as [[]|e1] eqn:Hi.
  2:{ rewrite (initialize_body_session_fails s e1 st Hs Hi).
      intros H. inversion H. auto. }
  destruct (list_tools s (list_tools_calls st)) as [tools|e2] eqn:Hl.
  2:{ rewrite (initialize_body_list_fails s e2 st Hs Hi Hl).
      intros H. inversion H. auto. }
  destruct (filter_by_annotations_computes self tools []) as ([filtered|e3] & msgs & Hf).
  2:{ rewrite (initialize_body_filter_fails s tools e3 msgs st Hs Hi Hl Hf).
      intros H. inversion H.
      rewrite logged_functions, logged_initialized. auto. }
  destruct (_check_tools_filters fw (map name filtered) (include_tools self)
                                 (exclude_tools self)) as [[]|e4] eqn:Hc.
  2:{ rewrite (initialize_body_check_fails s tools filtered e4 msgs st Hs Hi Hl Hf Hc).
      intros H. inversion H.
      rewrite logged_functions, logged_initialized. auto. }
  destruct (initialize_body_registers s tools filtered msgs st Hs Hi Hl Hf Hc)
    as (st'' & -> & _). discriminate.
Qed.

(** [initialize] when the flag is not set: the body, and on an exception
    the log entry and the same exception again. *)
Lemma initialize_run (st : state) :
  _initialized st = false ->
  initialize fw self st =
  match initialize_body fw self st with
  | (Ok a, st') => (Ok a, st')
  | (Raise e, st') => (Raise e, logged self [FailedToGetTools e] st')
  end.
Proof.
  intros H. unfold initialize, bind at 1, get. rewrite H.
  unfold try_except. destruct (initialize_body fw self st) as [[a|e] st'];
    [reflexivity|].
  cbn [any_Exception]. unfold bind, raise. rewrite log_run. reflexivity.
Qed.

Lemma initialize_ready (st : state) :
  _initialized st = true -> initialize fw self st = (Ok tt, st).
Proof. intros H. unfold initialize, bind, get. rewrite H. reflexivity. Qed.

End Initialize.

(** C8. Once [_initialized] is set, [initialize] returns at once: no round
    trip on the session, no change to the registry, nothing logged; the
    state after the call is the state before it. *)
Theorem initialize_idempotent (fw : framework) (self : self_t) (st : state) :
  _initialized st = true ->
  initialize fw self st = (Ok tt, st)
  /\ list_tools_calls (after (initialize fw self) st) = list_tools_calls st
  /\ session_initialize_calls (after (initialize fw self) st)
     = session_initialize_calls st
  /\ functions (after (initialize fw self) st) = functions st.
Proof.
  intros H. unfold after. rewrite (initialize_ready fw self st H).
  repeat split; reflexivity.
Qed.

(** A run of C8: the state reached by a first [initialize] on a session
    serving one tool, and a second call in that state. *)
Lemma initialize_idempotent_witness :
  initialize (failing_on []) (connected (serving [bare "A"]))
             (after (initialize (failing_on []) (connected (serving [bare "A"]))) fresh)
  = (Ok tt, after (initialize (failing_on []) (connected (serving [bare "A"]))) fresh)
  /\ list_tools_calls
       (after (initialize (failing_on []) (connected (serving [bare "A"])))
              (after (initialize (failing_on []) (connected (serving [bare "A"]))) fresh))
     = list_tools_calls
         (after (initialize (failing_on []) (connected (serving [bare "A"]))) fresh)
  /\ session_initialize_calls
       (after (initialize (failing_on []) (connected (serving [bare "A"])))
              (after (initialize (failing_on []) (connected (serving [bare "A"]))) fresh))
     = session_initialize_calls
         (after (initialize (failing_on []) (connected (serving [bare "A"]))) fresh)
  /\ functions
       (after (initialize (failing_on []) (connected (serving [bare "A"])))
              (after (initialize (failing_on []) (connected (serving [bare "A"]))) fresh))
     = functions
         (after (initialize (failing_on []) (connected (serving [bare "A"]))) fresh).
Proof.
  apply (initialize_idempotent
           (failing_on []) (connected (serving [bare "A"]))
           (after (initialize (failing_on []) (connected (serving [bare "A"]))) fresh)).
  reflexivity.
Defined.

(** C7. When the tools that pass both filters are [A], [B], [C] and
    building the action of [B] raises, [initialize] returns normally, sets
    [_initialized], and has added to the registry the actions of [A] and
    [C] under their names and nothing for [B]; starting from an empty
    registry, the registered names are exactly those of [A] and [C]. *)
Theorem registration_failure_is_skipped
        (fw : framework) (self : self_t) (s : ClientSession)
        (tools filtered : list Tool) (A B C : Tool) (fA fC : Function)
        (e : exn) (st : state) :
  _initialized st = false ->
  session self = Some s ->
  session_initialize s (session_initialize_calls st) = Ok tt ->
  list_tools s (list_tools_calls st) = Ok tools ->
  outcome (filter_by_annotations self tools []) st = Ok filtered ->
  _check_tools_filters fw (map name filtered) (include_tools self) (exclude_tools self)
  = Ok tt ->
  filter_by_name self filtered [] = [A; B; C] ->
  build_action fw A = Ok fA ->
  build_action fw B = Raise e ->
  build_action fw C = Ok fC ->
  outcome (initialize fw self) st = Ok tt
  /\ _initialized (after (initialize fw self) st) = true
  /\ functions (after (initialize fw self) st)
     = <[name C := fC]> (<[name A := fA]> (functions st))
  /\ (functions st = ∅ ->
      dom (functions (after (initialize fw self) st)) = {[name A; name C]}).
Proof.
  intros Hinit Hs Hi Hl Hf Hc Hfinal HA HB HC.
  destruct (filter_by_annotations_computes self tools []) as (r & msgs & Hrun).
  assert (r = Ok filtered) as -> by (unfold outcome in Hf; rewrite Hrun in Hf; exact Hf).
  destruct (initialize_body_registers fw self s tools filtered msgs st Hs Hi Hl Hrun Hc)
    as (st' & Hbody & Hready & Hfs & _).
  unfold outcome, after. rewrite (initialize_run fw self st Hinit), Hbody.
  cbn [fst snd].
  assert (Hreg : functions st' = <[name C := fC]> (<[name A := fA]> (functions st))).
  { rewrite Hfs, Hfinal. cbn [registered]. rewrite HA, HB, HC.
    rewrite (build_action_name fw A fA HA), (build_action_name fw C fC HC).
    reflexivity. }
  split; [reflexivity|]. split; [exact Hready|]. split; [exact Hreg|].
  intros Hempty. rewrite Hreg, Hempty, !dom_insert_L, dom_empty_L.
  rewrite (right_id_L ∅ (∪)). apply (comm_L (∪)).
Qed.

(** A run of C7: the session serves [A], [B], [C] and the framework
    refuses to build an entrypoint for [B]. *)
Lemma registration_failure_is_skipped_witness :
  outcome (initialize (failing_on ["B"])
                      (connected (serving [bare "A"; bare "B"; bare "C"]))) fresh
  = Ok tt
  /\ _initialized
       (after (initialize (failing_on ["B"])
                          (connected (serving [bare "A"; bare "B"; bare "C"]))) fresh)
     = true
  /\ functions
       (after (initialize (failing_on ["B"])
                          (connected (serving [bare "A"; bare "B"; bare "C"]))) fresh)
     = <["C" := {| f_name := "C"; f_description := VStr "";
                   f_parameters := VDict [(VStr "type", VStr "object")];
                   f_entrypoint :=
                     {| schema := VDict [(VStr "type", VStr "object")];
                        original_fn := fun _ => Coroutine (Ok VNone) |};
                   skip_entrypoint_processing := true |}]>
         (<["A" := {| f_name := "A"; f_description := VStr "";
                      f_parameters := VDict [(VStr "type", VStr "object")];
                      f_entrypoint :=
                        {| schema := VDict [(VStr "type", VStr "object")];
                           original_fn := fun _ => Coroutine (Ok VNone) |};
                      skip_entrypoint_processing := true |}]> (functions fresh))
  /\ (functions fresh = ∅ ->
      dom (functions
             (after (initialize (failing_on ["B"])
                                (connected (serving [bare "A"; bare "B"; bare "C"])))
                    fresh))
      = {["A"; "C"]}).
Proof.
  apply (registration_failure_is_skipped
           (failing_on ["B"]) (connected (serving [bare "A"; bare "B"; bare "C"]))
           (serving [bare "A"; bare "B"; bare "C"])
           [bare "A"; bare "B"; bare "C"] [bare "A"; bare "B"; bare "C"]
           (bare "A") (bare "B") (bare "C") _ _
           (OtherException "ValidationError") fresh); reflexivity.
Defined.

(** C4, as amended. A call of [initialize] on an instance that is not
    initialized raises when there is no session, when the session's
    [initialize()] or [list_tools()] raises, when the annotation filter
    raises, and when the check of the include/exclude lists raises; the
    exception is the one that occurred.  Whenever the call raises, the
    registry is as it was before the call and [_initialized] is still
    unset: the instance is left as before a first call, and a later call
    runs the whole pass again. *)
Theorem initialize_failure_leaves_registry
        (fw : framework) (self : self_t) (st : state) :
  _initialized st = false ->
  (forall e, outcome (initialize fw self) st = Raise e ->
     functions (after (initialize fw self) st) = functions st
     /\ _initialized (after (initialize fw self) st) = false)
  /\ (session self = None -> outcome (initialize fw self) st = Raise ValueError)
  /\ (forall s e, session self = Some s ->
        session_initialize s (session_initialize_calls st) = Raise e ->
        outcome (initialize fw self) st = Raise e)
  /\ (forall s e, session self = Some s ->
        session_initialize s (session_initialize_calls st) = Ok tt ->
        list_tools s (list_tools_calls st) = Raise e ->
        outcome (initialize fw self) st = Raise e)
  /\ (forall s tools e, session self = Some s ->
        session_initialize s (session_initialize_calls st) = Ok tt ->
        list_tools s (list_tools_calls st) = Ok tools ->
        outcome (filter_by_annotations self tools []) st = Raise e ->
        outcome (initialize fw self) st = Raise e)
  /\ (forall s tools filtered e, session self = Some s ->
        session_initialize s (session_initialize_calls st) = Ok tt ->
        list_tools s (list_tools_calls st) = Ok tools ->
        outcome (filter_by_annotations self tools []) st = Ok filtered ->
        _check_tools_filters fw (map name filtered)
                             (include_tools self) (exclude_tools self) = Raise e ->
        outcome (initialize fw self) st = Raise e).
Proof.
  intros Hinit. unfold outcome, after. rewrite (initialize_run fw self st Hinit).
  split; [|split; [|split; [|split; [|split]]]].
  - intros e. destruct (initialize_body fw self st) as [[a|e'] st'] eqn:Hbody;
      cbn [fst snd]; [discriminate|]. intros _.
    destruct (initialize_body_raises fw self e' st st' Hbody) as [Hfs Hin].
    rewrite logged_functions, logged_initialized. split; congruence.
  - intros Hs. rewrite (initialize_body_no_session fw self st Hs). reflexivity.
  - intros s e Hs Hi. rewrite (initialize_body_session_fails fw self s e st Hs Hi).
    reflexivity.
  - intros s e Hs Hi Hl. rewrite (initialize_body_list_fails fw self s e st Hs Hi Hl).
    reflexivity.
  - intros s tools e Hs Hi Hl Hf.
    destruct (filter_by_annotations_computes self tools []) as (r & msgs & Hrun).
    assert (r = Raise e) as -> by (rewrite Hrun in Hf; exact Hf).
    rewrite (initialize_body_filter_fails fw self s tools e msgs st Hs Hi Hl Hrun).
    reflexivity.
  - intros s tools filtered e Hs Hi Hl Hf Hc.
    destruct (filter_by_annotations_computes self tools []) as (r & msgs & Hrun).
    assert (r = Ok filtered) as -> by (rewrite Hrun in Hf; exact Hf).
    rewrite (initialize_body_check_fails fw self s tools filtered e msgs st
                                         Hs Hi Hl Hrun Hc).
    reflexivity.
Qed.

(** A run of C4: the first [list_tools()] of the session fails; the call
    raises and leaves the registry and the flag as they were. *)
Lemma initialize_failure_leaves_registry_witness :
  functions (after (initialize (failing_on []) (connected (flaky [bare "A"]))) fresh)
  = functions fresh
  /\ _initialized
       (after (initialize (failing_on []) (connected (flaky [bare "A"]))) fresh)
     = false.
Proof.
  apply (proj1 (initialize_failure_leaves_registry
                  (failing_on []) (connected (flaky [bare "A"])) fresh eq_refl)
               (OtherException "ConnectionError")).
  reflexivity.
Defined.

(** C4 as stated fails, twice.  There is no failed state that ends the
    life of the instance: after a call that raised because the catalogue
    could not be fetched, [_initialized] is unset as before, and a second
    call fetches again, registers the tool and sets the flag.  And an error
    while building the action of a tool does not abort the pass: the call
    returns normally and sets the flag, with nothing registered for that
    tool. *)
Lemma initialize_failure_is_not_terminal :
  (outcome (initialize (failing_on []) (connected (flaky [bare "A"]))) fresh
   = Raise (OtherException "ConnectionError")
   /\ _initialized
        (after (initialize (failing_on []) (connected (flaky [bare "A"]))) fresh)
      = false
   /\ outcome (initialize (failing_on []) (connected (flaky [bare "A"])))
              (after (initialize (failing_on []) (connected (flaky [bare "A"]))) fresh)
      = Ok tt
   /\ _initialized
        (after (initialize (failing_on []) (connected (flaky [bare "A"])))
               (after (initialize (failing_on []) (connected (flaky [bare "A"]))) fresh))
      = true
   /\ dom (functions
             (after (initialize (failing_on []) (connected (flaky [bare "A"])))
                    (after (initialize (failing_on []) (connected (flaky [bare "A"])))
                           fresh)))
      = {["A"]})
  /\ (build_action (failing_on ["B"]) (bare "B")
      = Raise (OtherException "ValidationError")
      /\ outcome (initialize (failing_on ["B"]) (connected (serving [bare "B"]))) fresh
         = Ok tt
      /\ _initialized
           (after (initialize (failing_on ["B"]) (connected (serving [bare "B"]))) fresh)
         = true
      /\ functions
           (after (initialize (failing_on ["B"]) (connected (serving [bare "B"]))) fresh)
         = ∅).
Proof. repeat split; reflexivity. Qed.

(** * Further properties *)

(** ** The inclusion decision as a conjunction *)

Section Decision.
Context (self : self_t).




(** The decision does not depend on the state it is taken in. *)
Lemma should_include_tool_any_state (tool : Tool) (st st' : state) :
  outcome (_should_include_tool self tool) st
  = outcome (_should_include_tool self tool) st'.
Proof.
  destruct (should_include_tool_computes self tool) as (r & msgs & H).
  unfold outcome. rewrite !H. reflexivity.
Qed.


End Decision.

(** The rules read no attribute of the instance: on two instances they
    compute the same. *)
Lemma match_all_filters_same (tool : Tool) (items : list (string * filter_value)) :
  exists r, forall self,
      exists msgs, computes self (match_all_filters self tool items) r msgs.
Proof.
  induction items as [|[key rule] items (r & IH)].
  - exists (Ok true). intros self. exists []. apply computes_ret.
  - destruct (get_annotation_value_ok unfiltered tool key) as (v & Ev).
    destruct (_annotation_value_matches_filter unfiltered v rule) as [[|]|e] eqn:Em.
    + exists r. intros self. destruct (IH self) as (msgs & Hrest).
      exists ([] ++ [] ++ msgs)%list. cbn [match_all_filters].
      change (_get_annotation_value self tool key)
        with (_get_annotation_value unfiltered tool key). rewrite Ev.
      eapply computes_bind; [apply computes_lift|].
      change (_annotation_value_matches_filter self v rule)
        with (_annotation_value_matches_filter unfiltered v rule). rewrite Em.
      eapply computes_bind; [apply computes_lift|]. exact Hrest.
    + exists (Ok false). intros self. eexists. cbn [match_all_filters].
      change (_get_annotation_value self tool key)
        with (_get_annotation_value unfiltered tool key). rewrite Ev.
      eapply computes_bind; [apply computes_lift|].
      change (_annotation_value_matches_filter self v rule)
        with (_annotation_value_matches_filter unfiltered v rule). rewrite Em.
      eapply computes_bind; [apply computes_lift|].
      eapply computes_bind; [apply computes_log|apply computes_ret].
    + exists (Raise e). intros self. eexists. cbn [match_all_filters].
      change (_get_annotation_value self tool key)
        with (_get_annotation_value unfiltered tool key). rewrite Ev.
      eapply computes_bind; [apply computes_lift|].
      change (_annotation_value_matches_filter self v rule)
        with (_annotation_value_matches_filter unfiltered v rule). rewrite Em.
      apply computes_bind_raise. apply computes_lift.
Qed.

Lemma should_include_tool_same (self1 self2 : self_t) (tool : Tool) :
  annotation_filters self1 = annotation_filters self2 ->
  custom_filter self1 = custom_filter self2 ->
  exists r msgs1 msgs2,
    computes self1 (_should_include_tool self1 tool) r msgs1
    /\ computes self2 (_should_include_tool self2 tool) r msgs2.
Proof.
  intros Ha Hc. unfold _should_include_tool.
  destruct (apply_custom_filter_computes self1 tool) as (l1 & H1).
  destruct (apply_custom_filter_computes self2 tool) as (l2 & H2).
  rewrite <- Hc in H2. rewrite <- Ha.
  match type of H1 with computes _ _ (Ok ?o) _ => destruct o as [b|] end.
  - eexists _, _, _. split.
    + eapply computes_bind; [exact H1|apply computes_ret].
    + eapply computes_bind; [exact H2|apply computes_ret].
  - destruct (annotation_filters self1) as [|item items].
    + eexists _, _, _. split.
      * eapply computes_bind; [exact H1|apply computes_ret].
      * eapply computes_bind; [exact H2|apply computes_ret].
    + destruct (match_all_filters_same tool (item :: items)) as (r & Hr).
      destruct (Hr self1) as (m1 & Hm1). destruct (Hr self2) as (m2 & Hm2).
      exists r. eexists _, _. split.
      * eapply computes_bind; [exact H1|exact Hm1].
      * eapply computes_bind; [exact H2|exact Hm2].
Qed.

(** X1. Logging never changes a decision: two instances with the same
    rules and the same custom filter decide alike on every tool, whatever
    their [debug_filtering] and whatever the state; and deciding changes
    nothing but the debug log (the registry, [_initialized] and the count
    of round trips on the session stay), which stays as it is too when
    [debug_filtering] is off. *)
Theorem should_include_tool_ignores_logging
        (self1 self2 : self_t) (tool : Tool) (st1 st2 : state) :
  annotation_filters self1 = annotation_filters self2 ->
  custom_filter self1 = custom_filter self2 ->
  outcome (_should_include_tool self1 tool) st1
  = outcome (_should_include_tool self2 tool) st2
  /\ functions (after (_should_include_tool self1 tool) st1) = functions st1
  /\ _initialized (after (_should_include_tool self1 tool) st1) = _initialized st1
  /\ session_initialize_calls (after (_should_include_tool self1 tool) st1)
     = session_initialize_calls st1
  /\ list_tools_calls (after (_should_include_tool self1 tool) st1)
     = list_tools_calls st1
  /\ (debug_filtering self1 = false ->
      after (_should_include_tool self1 tool) st1 = st1).
Proof.
  intros Ha Hc.
  destruct (should_include_tool_same self1 self2 tool Ha Hc)
    as (r & m1 & m2 & H1 & H2).
  unfold outcome, after. rewrite H1, H2. cbn [fst snd].
  rewrite logged_functions, logged_initialized, logged_session_initialize_calls,
    logged_list_tools_calls.
  repeat split. intros Hd. unfold logged. rewrite Hd. reflexivity.
Qed.

Lemma should_include_tool_ignores_logging_witness :
  outcome (_should_include_tool (by_toolsets ["a"] true)
                                (annotated "t" "toolsets" (VList [VStr "b"]))) fresh
  = outcome (_should_include_tool (by_toolsets ["a"] false)
                                  (annotated "t" "toolsets" (VList [VStr "b"])))
            (with_initialized true fresh)
  /\ functions (after (_should_include_tool (by_toolsets ["a"] true)
                         (annotated "t" "toolsets" (VList [VStr "b"]))) fresh)
     = functions fresh
  /\ _initialized (after (_should_include_tool (by_toolsets ["a"] true)
                            (annotated "t" "toolsets" (VList [VStr "b"]))) fresh)
     = _initialized fresh
  /\ session_initialize_calls
       (after (_should_include_tool (by_toolsets ["a"] true)
                 (annotated "t" "toolsets" (VList [VStr "b"]))) fresh)
     = session_initialize_calls fresh
  /\ list_tools_calls
       (after (_should_include_tool (by_toolsets ["a"] true)
                 (annotated "t" "toolsets" (VList [VStr "b"]))) fresh)
     = list_tools_calls fresh
  /\ (debug_filtering (by_toolsets ["a"] true) = false ->
      after (_should_include_tool (by_toolsets ["a"] true)
               (annotated "t" "toolsets" (VList [VStr "b"]))) fresh
      = fresh).
Proof.
  apply (should_include_tool_ignores_logging
           (by_toolsets ["a"] true) (by_toolsets ["a"] false)
           (annotated "t" "toolsets" (VList [VStr "b"]))
           fresh (with_initialized true fresh)); reflexivity.
Defined.





(** ** The annotation filter keeps the order of the catalogue *)

Section Subsequence.
Context (self : self_t).

Lemma filter_by_annotations_run (st : state) (tools : list Tool) :
  forall (kept0 : list Tool) (st0 : state),
    (forall kept,
        outcome (filter_by_annotations self tools kept0) st0 = Ok kept ->
        kept = (kept0 ++ List.filter (fun t => included self t st) tools)%list
        /\ forall t, In t tools ->
                     exists b, outcome (_should_include_tool self t) st = Ok b)
    /\ (forall e,
           outcome (filter_by_annotations self tools kept0) st0 = Raise e ->
           exists t, In t tools
                     /\ outcome (_should_include_tool self t) st = Raise e).
Proof.
  induction tools as [|tool tools IH]; intros kept0 st0; cbn [List.filter].
  - split.
    + intros kept H. inversion H. rewrite app_nil_r. split; [reflexivity|].
      intros t [].
    + intros e H. inversion H.
  - destruct (should_include_tool_computes self tool) as (r & l1 & H1).
    assert (Hd : outcome (_should_include_tool self tool) st = r)
      by (unfold outcome; rewrite H1; reflexivity).
    unfold included at 1. rewrite Hd.
    destruct r as [[|]|e1].
    + assert (Hstep :
                outcome (filter_by_annotations self (tool :: tools) kept0) st0
                = outcome (filter_by_annotations self tools (kept0 ++ [tool]))
                          (logged self [IncludingTool (name tool)]
                                  (logged self l1 st0)))
        by (unfold outcome; cbn [filter_by_annotations]; unfold bind;
            rewrite H1, log_run; reflexivity).
      rewrite Hstep.
      destruct (IH (kept0 ++ [tool])%list
                   (logged self [IncludingTool (name tool)] (logged self l1 st0)))
        as (IHok & IHraise).
      split.
      * intros kept Hk. destruct (IHok kept Hk) as (-> & Hall).
        split; [rewrite <- app_assoc; reflexivity|].
        intros t [<-|Ht]; [eauto|auto].
      * intros e He. destruct (IHraise e He) as (t & Ht & Hte).
        exists t. split; [right|]; assumption.
    + destruct (excluding_computes self tool) as (l3 & H3).
      assert (Hstep :
                outcome (filter_by_annotations self (tool :: tools) kept0) st0
                = outcome (filter_by_annotations self tools kept0)
                          (logged self l3 (logged self l1 st0))).
      { unfold outcome. cbn [filter_by_annotations]. unfold bind at 1. rewrite H1.
        unfold bind at 1. rewrite H3. reflexivity. }
      rewrite Hstep.
      destruct (IH kept0 (logged self l3 (logged self l1 st0))) as (IHok & IHraise).
      split.
      * intros kept Hk. destruct (IHok kept Hk) as (-> & Hall).
        split; [reflexivity|]. intros t [<-|Ht]; [eauto|auto].
      * intros e He. destruct (IHraise e He) as (t & Ht & Hte).
        exists t. split; [right|]; assumption.
    + assert (Hstep :
                outcome (filter_by_annotations self (tool :: tools) kept0) st0
                = Raise e1)
        by (unfold outcome; cbn [filter_by_annotations]; unfold bind;
            rewrite H1; reflexivity).
      rewrite Hstep. split.
      * intros kept Hk. discriminate.
      * intros e He. inversion He. subst e1. exists tool. split; [left|]; auto.
Qed.

End Subsequence.


(** A run of X4 on three tools, the second of which is rejected. *)
Example filter_by_annotations_keeps_order :
  outcome (filter_by_annotations (by_toolsets ["a"] false)
             [annotated "x" "toolsets" (VList [VStr "a"]);
              annotated "y" "toolsets" (VList [VStr "b"]);
              annotated "z" "toolsets" (VList [VStr "a"; VStr "c"])] []) fresh
  = Ok [annotated "x" "toolsets" (VList [VStr "a"]);
        annotated "z" "toolsets" (VList [VStr "a"; VStr "c"])].
Proof. reflexivity. Qed.

(** ** What a pass registers *)

Section Registry.
Context (fw : framework) (self : self_t).

Lemma registered_app (l1 l2 : list Tool) :
  forall fs, registered fw (l1 ++ l2) fs = registered fw l2 (registered fw l1 fs).
Proof.
  induction l1 as [|t l1 IH]; intros fs; cbn [registered app]; [reflexivity|].
  apply IH.
Qed.

(** A name under which no tool of the pass gets an action keeps its
    entry. *)
Lemma registered_unbuilt (n : string) (tools : list Tool) :
  forall fs : gmap string Function,
    (forall t, In t tools -> built_as fw n t = false) ->
    registered fw tools fs !! n = fs !! n.
Proof.
  induction tools as [|t tools IH]; intros fs Hno; cbn [registered];
    [reflexivity|].
  rewrite IH by (intros t' Ht'; apply Hno; right; exact Ht').
  assert (Ht : built_as fw n t = false) by (apply Hno; left; reflexivity).
  unfold built_as in Ht. destruct (build_action fw t) as [f|e] eqn:Eb;
    [|reflexivity].
  rewrite andb_true_r in Ht. apply String.eqb_neq in Ht.
  apply lookup_insert_ne. rewrite (build_action_name fw t f Eb). exact Ht.
Qed.

(** An entry that changed belongs to a tool of the pass whose action was
    built. *)
Lemma registered_origin (n : string) (tools : list Tool) :
  forall fs : gmap string Function,
    registered fw tools fs !! n <> fs !! n ->
    exists t f, In t tools /\ name t = n /\ build_action fw t = Ok f.
Proof.
  induction tools as [|t tools IH]; intros fs Hne; cbn [registered] in Hne.
  - contradiction.
  - destruct (build_action fw t) as [f|e] eqn:Eb.
    + destruct (String.eqb (name t) n) eqn:En.
      * apply String.eqb_eq in En. exists t, f. split; [left|]; auto.
      * apply String.eqb_neq in En.
        destruct (IH (<[f_name f := f]> fs)) as (t' & f' & Hin & Hn & Hb).
        { intros E. apply Hne. rewrite E. apply lookup_insert_ne.
          rewrite (build_action_name fw t f Eb). exact En. }
        exists t', f'. split; [right|]; auto.
    + destruct (IH fs Hne) as (t' & f' & Hin & Hn & Hb).
      exists t', f'. split; [right|]; auto.
Qed.

(** The last tool of a name whose action is built holds the entry. *)
Lemma registered_last (l1 l2 : list Tool) (tool : Tool) (f : Function) :
  forall fs : gmap string Function,
    build_action fw tool = Ok f ->
    (forall t, In t l2 -> built_as fw (name tool) t = false) ->
    registered fw (l1 ++ tool :: l2) fs !! name tool = Some f.
Proof.
  intros fs Hb Hl2. rewrite registered_app. cbn [registered]. rewrite Hb.
  rewrite registered_unbuilt by exact Hl2.
  rewrite (build_action_name fw tool f Hb). apply lookup_insert_eq.
Qed.

Lemma register_tools_after (tools : list Tool) (st : state) :
  functions (after (register_tools fw self tools) st)
  = registered fw tools (functions st).
Proof.
  unfold after. rewrite register_tools_run. cbn [snd].
  rewrite logged_functions. reflexivity.
Qed.

(** The state a successful pass leaves. *)
Lemma initialize_body_registers_state (s : ClientSession)
      (tools filtered : list Tool) (msgs : list message) (st : state) :
  session self = Some s ->
  session_initialize s (session_initialize_calls st) = Ok tt ->
  list_tools s (list_tools_calls st) = Ok tools ->
  computes self (filter_by_annotations self tools []) (Ok filtered) msgs ->
  _check_tools_filters fw (map name filtered) (include_tools self) (exclude_tools self)
  = Ok tt ->
  exists st',
    initialize_body fw self st = (Ok tt, st')
    /\ _initialized st' = true
    /\ functions st' = registered fw (filter_by_name self filtered []) (functions st)
    /\ list_tools_calls st' = S (list_tools_calls st)
    /\ session_initialize_calls st' = S (session_initialize_calls st).
Proof.
  intros Hs Hi Hl Hf Hc. rewrite (initialize_body_fetched fw self s tools st Hs Hi Hl).
  unfold bind at 1. rewrite computes_banner.
  unfold bind at 1. rewrite Hf.
  unfold bind at 1. rewrite computes_count_note.
  unfold bind at 1. unfold lift at 1. rewrite Hc.
  unfold bind at 1. rewrite log_run.
  unfold bind at 1. rewrite register_tools_run.
  unfold bind at 1. rewrite log_run.
  unfold modify. eexists. split; [reflexivity|].
  repeat (progress cbn [_initialized functions list_tools_calls
                        session_initialize_calls with_initialized with_functions]
          || rewrite logged_functions || rewrite logged_list_tools_calls
          || rewrite logged_session_initialize_calls).
  repeat split; reflexivity.
Qed.

(** What is known of a call that returned normally on an instance not yet
    initialized. *)
Lemma initialize_returned (st : state) :
  _initialized st = false ->
  outcome (initialize fw self) st = Ok tt ->
  exists s tools filtered,
    session self = Some s
    /\ session_initialize s (session_initialize_calls st) = Ok tt
    /\ list_tools s (list_tools_calls st) = Ok tools
    /\ outcome (filter_by_annotations self tools []) st = Ok filtered
    /\ _check_tools_filters fw (map name filtered)
                            (include_tools self) (exclude_tools self) = Ok tt
    /\ _initialized (after (initialize fw self) st) = true
    /\ functions (after (initialize fw self) st)
       = registered fw (filter_by_name self filtered []) (functions st)
    /\ list_tools_calls (after (initialize fw self) st) = S (list_tools_calls st)
    /\ session_initialize_calls (after (initialize fw self) st)
       = S (session_initialize_calls st).
Proof.
  intros Hinit. unfold outcome, after. rewrite (initialize_run fw self st Hinit).
  destruct (session self) as [s|] eqn:Hs.
  2:{ rewrite initialize_body_no_session by exact Hs. discriminate. }
  destruct (session_initialize s (session_initialize_calls st)) as [[]|e1] eqn:Hi.
  2:{ rewrite (initialize_body_session_fails fw self s e1 st Hs Hi). discriminate. }
  destruct (list_tools s (list_tools_calls st)) as [tools|e2] eqn:Hl.
  2:{ rewrite (initialize_body_list_fails fw self s e2 st Hs Hi Hl). discriminate. }
  destruct (filter_by_annotations_computes self tools []) as ([filtered|e3] & msgs & Hf).
  2:{ rewrite (initialize_body_filter_fails fw self s tools e3 msgs st Hs Hi Hl Hf).
      discriminate. }
  destruct (_check_tools_filters fw (map name filtered) (include_tools self)
                                 (exclude_tools self)) as [[]|e4] eqn:Hc.
  2:{ rewrite (initialize_body_check_fails fw self s tools filtered e4 msgs st
                                           Hs Hi Hl Hf Hc). discriminate. }
  destruct (initialize_body_registers_state s tools filtered msgs st Hs Hi Hl Hf Hc)
    as (st' & -> & Hready & Hfs & Hlc & Hsc).
  cbn [fst snd]. intros _. exists s, tools, filtered.
  repeat split; try assumption; try reflexivity.
  rewrite Hf. reflexivity.
Qed.

End Registry.

(** X5. The registration loop never raises and does not touch
    [_initialized].  A name under which no tool of the loop gets an action
    keeps the entry it had; and among several tools of the same name the
    last one whose action can be built holds the entry afterwards: a later
    tool silently overwrites an earlier one. *)
Theorem register_tools_last_wins
        (fw : framework) (self : self_t) (tools : list Tool) (st : state) :
  outcome (register_tools fw self tools) st = Ok tt
  /\ _initialized (after (register_tools fw self tools) st) = _initialized st
  /\ (forall n,
        (forall t, In t tools -> built_as fw n t = false) ->
        functions (after (register_tools fw self tools) st) !! n = functions st !! n)
  /\ (forall l1 tool l2 f,
        tools = (l1 ++ tool :: l2)%list ->
        build_action fw tool = Ok f ->
        (forall t, In t l2 -> built_as fw (name tool) t = false) ->
        functions (after (register_tools fw self tools) st) !! name tool = Some f).
Proof.
  split; [|split; [|split]].
  - unfold outcome. rewrite register_tools_run. reflexivity.
  - unfold after. rewrite register_tools_run. cbn [snd].
    rewrite logged_initialized. reflexivity.
  - intros n Hno. rewrite register_tools_after. apply registered_unbuilt. exact Hno.
  - intros l1 tool l2 f -> Hb Hl2. rewrite register_tools_after.
    apply registered_last; assumption.
Qed.

(** A run of X5: two tools are named [A]; the action registered under
    [A] is the one of the second, whose description is ["second"]. *)
Example register_tools_collision :
  f_description
  <$> functions
        (after (register_tools (failing_on []) unfiltered
                  [bare "A";
                   {| name := "A"; description := VStr "second";
                      inputSchema := VDict []; annotations := NoAttr |}]) fresh)
      !! "A"
  = Some (VStr "second").
Proof. reflexivity. Qed.

(** X6. A call of [initialize] that returns normally on an instance not
    yet initialized has set [_initialized], has made exactly one
    [initialize()] and one [list_tools()] round trip on the session, and has
    run the registration loop over the tools of the fetched catalogue that
    pass the annotation filter and then the name filter; when no tool
    passes, the registry is as before: an empty selection is a success, not
    an error. *)
Theorem initialize_success (fw : framework) (self : self_t) (st : state) :
  _initialized st = false ->
  outcome (initialize fw self) st = Ok tt ->
  _initialized (after (initialize fw self) st) = true
  /\ session_initialize_calls (after (initialize fw self) st)
     = S (session_initialize_calls st)
  /\ list_tools_calls (after (initialize fw self) st) = S (list_tools_calls st)
  /\ exists s tools filtered,
       session self = Some s
       /\ list_tools s (list_tools_calls st) = Ok tools
       /\ outcome (filter_by_annotations self tools []) st = Ok filtered
       /\ functions (after (initialize fw self) st)
          = functions (after (register_tools fw self
                                (filter_by_name self filtered [])) st)
       /\ (filter_by_name self filtered [] = [] ->
           functions (after (initialize fw self) st) = functions st).
Proof.
  intros Hinit Hok.
  destruct (initialize_returned fw self st Hinit Hok)
    as (s & tools & filtered & Hs & Hi & Hl & Hf & Hc & Hready & Hfs & Hlc & Hsc).
  split; [exact Hready|]. split; [exact Hsc|]. split; [exact Hlc|].
  exists s, tools, filtered. split; [exact Hs|]. split; [exact Hl|].
  split; [exact Hf|]. split.
  - rewrite register_tools_after. exact Hfs.
  - intros Hnil. rewrite Hfs, Hnil. reflexivity.
Qed.

(** A run of X6: ten tools, none tagged with the toolset asked for; the
    pass succeeds with an empty registry. *)
Lemma initialize_success_witness :
  _initialized
    (after (initialize (failing_on [])
              (instance [("toolsets", Plain (VList [VStr "nonexistent"]))]
                        None false None None
                        (Some (serving (map (fun n => annotated n "toolsets"
                                                         (VList [VStr "performance"]))
                                            ["t0"; "t1"; "t2"; "t3"; "t4";
                                             "t5"; "t6"; "t7"; "t8"; "t9"])))))
           fresh) = true
  /\ functions
       (after (initialize (failing_on [])
                 (instance [("toolsets", Plain (VList [VStr "nonexistent"]))]
                           None false None None
                           (Some (serving (map (fun n => annotated n "toolsets"
                                                            (VList [VStr "performance"]))
                                               ["t0"; "t1"; "t2"; "t3"; "t4";
                                                "t5"; "t6"; "t7"; "t8"; "t9"])))))
              fresh) = ∅.
Proof.
  pose proof (initialize_success
                (failing_on [])
                (instance [("toolsets", Plain (VList [VStr "nonexistent"]))]
                          None false None None
                          (Some (serving (map (fun n => annotated n "toolsets"
                                                           (VList [VStr "performance"]))
                                              ["t0"; "t1"; "t2"; "t3"; "t4";
                                               "t5"; "t6"; "t7"; "t8"; "t9"]))))
                fresh eq_refl eq_refl) as (Hready & _).
  split; [exact Hready|reflexivity].
Defined.

(** X7. A pass registers nothing it filtered out: every entry of the
    registry that a successful [initialize] changed is named after a tool
    of the fetched catalogue that [_should_include_tool] accepted, that the
    exclude list does not name, that the include list (if any) names, and
    whose action was built. *)
Theorem initialize_registers_only_filtered
        (fw : framework) (self : self_t) (st : state) (n : string) :
  _initialized st = false ->
  outcome (initialize fw self) st = Ok tt ->
  functions (after (initialize fw self) st) !! n <> functions st !! n ->
  exists s tools tool f,
    session self = Some s
    /\ list_tools s (list_tools_calls st) = Ok tools
    /\ In tool tools
    /\ name tool = n
    /\ outcome (_should_include_tool self tool) st = Ok true
    /\ excluded_by_name self tool = false
    /\ included_by_name self tool = true
    /\ build_action fw tool = Ok f.
Proof.
  intros Hinit Hok Hne.
  destruct (initialize_returned fw self st Hinit Hok)
    as (s & tools & filtered & Hs & Hi & Hl & Hf & Hc & Hready & Hfs & Hlc & Hsc).
  rewrite Hfs in Hne.
  destruct (registered_origin fw n _ _ Hne) as (tool & f & Hin & Hn & Hb).
  rewrite filter_by_name_filter in Hin. cbn [app] in Hin.
  apply filter_In in Hin as [Hin Hpass].
  unfold passes_name_filter in Hpass. apply andb_prop in Hpass as [Hex Hinc].
  apply negb_true_iff in Hex.
  destruct (filter_by_annotations_run self st tools [] st) as (Hkept & _).
  destruct (Hkept filtered Hf) as (-> & Hall).
  cbn [app] in Hin. apply filter_In in Hin as [Hin Hincl].
  exists s, tools, tool, f. repeat split; try assumption.
  unfold included in Hincl.
  destruct (outcome (_should_include_tool self tool) st) as [[|]|e];
    [reflexivity|discriminate|discriminate].
Qed.

Lemma initialize_registers_only_filtered_witness :
  exists s tools tool f,
    session (connected (serving [bare "A"])) = Some s
    /\ list_tools s (list_tools_calls fresh) = Ok tools
    /\ In tool tools
    /\ name tool = "A"
    /\ outcome (_should_include_tool (connected (serving [bare "A"])) tool) fresh
       = Ok true
    /\ excluded_by_name (connected (serving [bare "A"])) tool = false
    /\ included_by_name (connected (serving [bare "A"])) tool = true
    /\ build_action (failing_on []) tool = Ok f.
Proof.
  apply (initialize_registers_only_filtered
           (failing_on []) (connected (serving [bare "A"])) fresh "A").
  - reflexivity.
  - reflexivity.
  - vm_compute. discriminate.
Defined.

(** ** Coercion keeps the parameters *)

Section Parameters.
Context (self : self_t) (rt : runtime).

(** One turn of the loop that does not raise stores some value under the
    key, the supplied one when the property is not declared, and goes on. *)
Lemma coerce_items_step (properties : value) (key : string) (val : value)
      (items coerced c : kwargs) (st st' : state) :
  coerce_items self rt properties ((key, val) :: items) coerced st = (Ok c, st') ->
  exists x st1,
    coerce_items self rt properties items (kw_set coerced key x) st1 = (Ok c, st')
    /\ (py_contains properties (VStr key) = Ok false -> x = val).
Proof.
  cbn [coerce_items]. unfold bind at 1, lift at 1.
  destruct (py_contains properties (VStr key)) as [[|]|e]; [| |discriminate].
  - cbn [negb]. unfold bind at 1, lift at 1.
    destruct (py_getitem properties key) as [ps|e]; [|discriminate].
    unfold bind at 1, lift at 1.
    destruct (py_get ps (VStr "type") VNone) as [ty|e]; [|discriminate].
    destruct (negb (py_bool ty) || is_None val).
    + intros H. exists val, st. split; [exact H|reflexivity].
    + unfold bind at 1, try_except, bind at 1, lift at 1.
      destruct (coerce_value rt ty val) as [new|e].
      * unfold bind at 1. rewrite computes_debug_note. unfold ret at 1.
        intros H. eexists new, _. split; [exact H|discriminate].
      * destruct (ValueError_or_TypeError e); [|discriminate].
        unfold bind at 1. rewrite log_run. unfold ret at 1.
        intros H. eexists val, _. split; [exact H|reflexivity].
  - cbn [negb]. intros H. exists val, st. split; [exact H|reflexivity].
Qed.

Lemma kw_set_keys (d : kwargs) (k : string) (x : value) :
  map fst (kw_set d k x)
  = if existsb (fun k' => String.eqb k' k) (map fst d) then map fst d
    else (map fst d ++ [k])%list.
Proof.
  induction d as [|[k' y] d IH]; cbn [kw_set map fst existsb]; [reflexivity|].
  destruct (String.eqb k' k); cbn [map fst orb]; [reflexivity|].
  rewrite IH. destruct (existsb _ (map fst d)); reflexivity.
Qed.

Lemma kw_get_In (d : kwargs) (key : string) (val : value) :
  List.NoDup (map fst d) -> In (key, val) d -> kw_get d key = Some val.
Proof.
  induction d as [|[k v] d IH]; intros Hnd Hin; [destruct Hin|].
  cbn [map fst] in Hnd. apply NoDup_cons_iff in Hnd as [Hk Hnd].
  cbn [kw_get]. destruct Hin as [E|Hin].
  - inversion E. subst. rewrite String.eqb_refl. reflexivity.
  - destruct (String.eqb k key) eqn:E.
    + apply String.eqb_eq in E. subst k. exfalso. apply Hk.
      apply (in_map fst) in Hin. exact Hin.
    + apply IH; assumption.
Qed.

(** The keys of the result: those gathered so far, then the new ones in
    the order of the parameters. *)
Lemma coerce_items_keys (properties : value) (items : kwargs) :
  forall coerced c st st',
    coerce_items self rt properties items coerced st = (Ok c, st') ->
    List.NoDup (map fst coerced ++ map fst items) ->
    map fst c = (map fst coerced ++ map fst items)%list.
Proof.
  induction items as [|[key val] items IH]; intros coerced c st st' Hrun Hnd.
  - cbn [coerce_items] in Hrun. inversion Hrun. cbn [map]. rewrite app_nil_r.
    reflexivity.
  - destruct (coerce_items_step _ _ _ _ _ _ _ _ Hrun) as (x & st1 & Hrest & _).
    assert (Hfresh : existsb (fun k' => String.eqb k' key) (map fst coerced) = false).
    { apply not_true_is_false. intros H. apply existsb_exists in H as (k' & Hk' & E).
      apply String.eqb_eq in E. subst k'. cbn [map fst] in Hnd.
      apply NoDup_remove_2 in Hnd. apply Hnd. apply in_or_app. left. exact Hk'. }
    assert (Hkeys : map fst (kw_set coerced key x) = (map fst coerced ++ [key])%list)
      by (rewrite kw_set_keys, Hfresh; reflexivity).
    rewrite (IH _ _ _ _ Hrest); rewrite Hkeys, <- app_assoc; [reflexivity|].
    exact Hnd.
Qed.

(** The values of the result: a parameter that is not declared keeps its
    value, and a key the loop does not meet keeps its entry. *)
Lemma coerce_items_values (properties : value) (items : kwargs) :
  forall coerced c st st',
    coerce_items self rt properties items coerced st = (Ok c, st') ->
    List.NoDup (map fst items) ->
    (forall key val, In (key, val) items ->
                     py_contains properties (VStr key) = Ok false ->
                     kw_get c key = Some val)
    /\ (forall key, ~ In key (map fst items) -> kw_get c key = kw_get coerced key).
Proof.
  induction items as [|[k v] items IH]; intros coerced c st st' Hrun Hnd.
  - cbn [coerce_items] in Hrun. inversion Hrun. split; [intros ? ? []|reflexivity].
  - destruct (coerce_items_step _ _ _ _ _ _ _ _ Hrun) as (x & st1 & Hrest & Hx).
    cbn [map fst] in Hnd. apply NoDup_cons_iff in Hnd as [Hk Hnd].
    destruct (IH _ _ _ _ Hrest Hnd) as (Hvals & Hkeep). split.
    + intros key val [E|Hin] Hundeclared.
      * inversion E. subst k v. rewrite (Hkeep key Hk), (Hx Hundeclared).
        apply kw_get_set_same.
      * apply Hvals; assumption.
    + intros key Hnot. cbn [map fst] in Hnot.
      rewrite Hkeep by (intros H; apply Hnot; right; exact H).
      apply kw_get_set_other. intros ->. apply Hnot. left. reflexivity.
Qed.

End Parameters.



(** X8. Coercion neither drops nor invents a parameter: when the call
    returns, the result has the keys of the supplied arguments, in their
    order; a parameter the schema's [properties] do not declare keeps its
    value; and with a schema that is empty or has no ["properties"] the
    arguments come back as they are. *)
Theorem coerce_parameters_keeps_parameters
        (self : self_t) (rt : runtime) (params : kwargs) (schema : value)
        (st : state) (coerced : kwargs) :
  List.NoDup (map fst params) ->
  outcome (_coerce_parameters self rt params schema) st = Ok coerced ->
  map fst coerced = map fst params
  /\ (forall key val properties,
        In (key, val) params ->
        py_get schema (VStr "properties") (VDict []) = Ok properties ->
        py_contains properties (VStr key) = Ok false ->
        kw_get coerced key = Some val)
  /\ (py_bool schema = false \/ py_contains schema (VStr "properties") = Ok false ->
      coerced = params).
Proof.
  intros Hnd. unfold outcome, _coerce_parameters.
  assert (Hsame : forall key val, In (key, val) params -> kw_get params key = Some val)
    by (intros; apply kw_get_In; assumption).
  destruct (py_bool schema); cbn [negb].
  2:{ intros H. inversion H. subst. repeat split; auto. }
  unfold bind at 1, lift at 1.
  destruct (py_contains schema (VStr "properties")) as [[|]|e]; cbn [negb fst].
  - unfold bind at 1, lift at 1.
    destruct (py_get schema (VStr "properties") (VDict [])) as [properties|e];
      [|discriminate].
    destruct (coerce_items self rt properties params [] st) as [r st'] eqn:Hrun.
    cbn [fst]. intros ->. split; [|split].
    + apply (coerce_items_keys self rt properties params [] coerced st st' Hrun).
      exact Hnd.
    + intros key val properties' Hin E Hundeclared. inversion E. subst properties'.
      destruct (coerce_items_values self rt properties params [] coerced st st'
                                    Hrun Hnd) as (Hvals & _).
      apply (Hvals key val); assumption.
    + intros [H|H]; discriminate.
  - intros H. inversion H. subst. repeat split; auto.
  - discriminate.
Qed.

Lemma coerce_parameters_keeps_parameters_witness :
  map fst [("n", VInt 42); ("limit", VInt 7)] = map fst [("n", VStr "42"); ("limit", VInt 7)]
  /\ (forall key val properties,
        In (key, val) [("n", VStr "42"); ("limit", VInt 7)] ->
        py_get (schema_of "n" "integer") (VStr "properties") (VDict []) = Ok properties ->
        py_contains properties (VStr key) = Ok false ->
        kw_get [("n", VInt 42); ("limit", VInt 7)] key = Some val)
  /\ (py_bool (schema_of "n" "integer") = false
      \/ py_contains (schema_of "n" "integer") (VStr "properties") = Ok false ->
      [("n", VInt 42); ("limit", VInt 7)] = [("n", VStr "42"); ("limit", VInt 7)]).
Proof.
  apply (coerce_parameters_keeps_parameters
           unfiltered runtime0 [("n", VStr "42"); ("limit", VInt 7)]
           (schema_of "n" "integer") fresh [("n", VInt 42); ("limit", VInt 7)]).
  - constructor; [intros [H|[]]; discriminate|].
    constructor; [intros []|constructor].
  - reflexivity.
Defined.


(** ** Coercion by declared type *)

Section DeclaredTypes.
Context (self : self_t) (rt : runtime).

Lemma declared_dicts_spec (pd : list (value * value)) (params : kwargs) :
  declared_dicts pd params = true <-> declared_as_dicts pd params.
Proof.
  unfold declared_dicts, declared_as_dicts. rewrite forallb_forall. split.
  - intros H key val ps Hin Hps. specialize (H _ Hin). cbn [fst] in H.
    rewrite Hps in H. exact H.
  - intros H [key val] Hin. cbn [fst].
    destruct (dict_lookup pd (VStr key)) as [ps|] eqn:Hps; [|reflexivity].
    apply (H key val ps); assumption.
Qed.

(** A declared property whose schema is not a dict stops the loop with an
    [AttributeError]: [prop_schema.get] is called outside the [try]. *)
Lemma coerce_items_malformed (pd : list (value * value)) (items : kwargs) :
  declared_dicts pd items = false ->
  forall coerced,
  exists msgs,
    computes self (coerce_items self rt (VDict pd) items coerced)
             (Raise AttributeError) msgs.
Proof.
  induction items as [|[key val] items IH]; cbn [declared_dicts forallb fst];
    [discriminate|].
  intros Hbad coerced. cbn [coerce_items].
  destruct (dict_lookup pd (VStr key)) as [ps|] eqn:Eps.
  - assert (E1 : py_contains (VDict pd) (VStr key) = Ok true)
      by (cbn [py_contains hashable]; rewrite Eps; reflexivity).
    assert (E2 : py_getitem (VDict pd) key = Ok ps)
      by (cbn [py_getitem]; rewrite Eps; reflexivity).
    rewrite E1. destruct (is_dict ps) eqn:Ed.
    + destruct ps as [| | | | | |ps]; try discriminate.
      cbn [andb] in Hbad.
      assert (E3 : py_get (VDict ps) (VStr "type") VNone = Ok (get_or_None ps "type"))
        by reflexivity.
      destruct (negb (py_bool (get_or_None ps "type")) || is_None val) eqn:Ety.
      * destruct (IH Hbad (kw_set coerced key val)) as (msgs & Hrest).
        exists ([] ++ [] ++ [] ++ msgs)%list.
        eapply computes_bind; [apply computes_lift|]. cbv beta. cbn [negb].
        rewrite E2. eapply computes_bind; [apply computes_lift|]. cbv beta.
        rewrite E3. eapply computes_bind; [apply computes_lift|]. cbv beta.
        rewrite Ety. exact Hrest.
      * destruct (IH Hbad (kw_set coerced key (stored rt pd key val)))
          as (msgs & Hrest).
        eexists.
        eapply computes_bind; [apply computes_lift|]. cbv beta. cbn [negb].
        rewrite E2. eapply computes_bind; [apply computes_lift|]. cbv beta.
        rewrite E3. eapply computes_bind; [apply computes_lift|]. cbv beta.
        rewrite Ety.
        eapply computes_bind; [apply coerce_one_computes; eassumption|exact Hrest].
    + assert (E3 : py_get ps (VStr "type") VNone = Raise AttributeError)
        by (destruct ps; try reflexivity; discriminate).
      exists ([] ++ [] ++ [])%list.
      eapply computes_bind; [apply computes_lift|]. cbv beta. cbn [negb].
      rewrite E2. eapply computes_bind; [apply computes_lift|]. cbv beta.
      rewrite E3. apply computes_bind_raise. apply computes_lift.
  - assert (E1 : py_contains (VDict pd) (VStr key) = Ok false)
      by (cbn [py_contains hashable]; rewrite Eps; reflexivity).
    rewrite E1. cbn [andb] in Hbad.
    destruct (IH Hbad (kw_set coerced key val)) as (msgs & Hrest).
    exists ([] ++ msgs)%list.
    eapply computes_bind; [apply computes_lift|]. cbv beta. cbn [negb]. exact Hrest.
Qed.

(** With unequal keys the result is the list of the parameters, each with
    the value stored for it. *)
Lemma fold_kw_set_map (f : string -> value -> value) (items : kwargs) :
  forall coerced,
    List.NoDup (map fst coerced ++ map fst items) ->
    fold_left (fun c kv => kw_set c (fst kv) (f (fst kv) (snd kv))) items coerced
    = (coerced ++ map (fun kv => (fst kv, f (fst kv) (snd kv))) items)%list.
Proof.
  induction items as [|[k v] items IH]; intros coerced Hnd; cbn [fold_left map fst snd].
  - rewrite app_nil_r. reflexivity.
  - assert (Hset : kw_set coerced k (f k v) = (coerced ++ [(k, f k v)])%list).
    { cbn [map fst] in Hnd. apply NoDup_remove_2 in Hnd.
      assert (Hk : ~ In k (map fst coerced))
        by (intros H; apply Hnd; apply in_or_app; left; exact H).
      clear Hnd IH. induction coerced as [|[k' y] coerced IHc]; cbn [kw_set app];
        [reflexivity|].
      destruct (String.eqb k' k) eqn:E.
      - apply String.eqb_eq in E. subst k'. exfalso. apply Hk. left. reflexivity.
      - rewrite IHc; [reflexivity|]. intros H. apply Hk. right. exact H. }
    rewrite Hset, IH.
    + rewrite <- app_assoc. reflexivity.
    + rewrite map_app. cbn [map fst]. rewrite <- app_assoc. exact Hnd.
Qed.

Lemma coerce_parameters_coerced_of (sd pd : list (value * value)) (params : kwargs)
      (st : state) :
  dict_lookup sd (VStr "properties") = Some (VDict pd) ->
  declared_as_dicts pd params ->
  List.NoDup (map fst params) ->
  outcome (_coerce_parameters self rt params (VDict sd)) st
  = Ok (coerced_of rt pd params).
Proof.
  intros Hp Hwf Hnd. unfold outcome.
  rewrite (coerce_parameters_computes self rt sd pd params Hp Hwf). cbn [fst].
  rewrite (fold_kw_set_map (stored rt pd)) by exact Hnd. reflexivity.
Qed.


Lemma py_dict_is_dict (v r : value) : py_dict v = Ok r -> is_dict r = true.
Proof.
  unfold py_dict. destruct v; cbn [py_list rbind]; try discriminate.
  - destruct (dict_add_pairs [] (chars s)); cbn [rbind]; [|discriminate].
    intros H. inversion H. reflexivity.
  - destruct (dict_add_pairs [] l); cbn [rbind]; [|discriminate].
    intros H. inversion H. reflexivity.
  - intros H. inversion H. reflexivity.
Qed.

Lemma py_list_is_list (v r : value) : py_list v = Ok r -> is_list r = true.
Proof. destruct v; cbn [py_list]; intros H; inversion H; reflexivity. Qed.

(** Converting a converted value changes nothing. *)
Lemma coerce_value_again (ty val new : value) :
  coerce_value rt ty val = Ok new -> coerce_value rt ty new = Ok new.
Proof.
  unfold coerce_value.
  destruct (py_eq ty (VStr "number") || py_eq ty (VStr "integer")).
  { destruct val; try (intros H; inversion H; reflexivity).
    destruct (py_eq ty (VStr "integer")).
    - unfold py_int. destruct (int_of_str _ s); intros H; inversion H. reflexivity.
    - unfold py_float. destruct (float_of_str rt s); intros H; inversion H.
      reflexivity. }
  destruct (py_eq ty (VStr "boolean")).
  { destruct val; intros H; inversion H; reflexivity. }
  destruct (py_eq ty (VStr "string")).
  { intros H. inversion H. destruct val; reflexivity. }
  destruct (py_eq ty (VStr "array")).
  { destruct (is_list val) eqn:El.
    - intros H. inversion H. subst. rewrite El. reflexivity.
    - intros H. rewrite (py_list_is_list val new H). reflexivity. }
  destruct (py_eq ty (VStr "object")).
  { destruct (is_dict val) eqn:Ed.
    - intros H. inversion H. subst. rewrite Ed. reflexivity.
    - intros H. rewrite (py_dict_is_dict val new H). reflexivity. }
  intros H. inversion H. reflexivity.
Qed.

Lemma stored_again (pd : list (value * value)) (key : string) (val : value) :
  stored rt pd key (stored rt pd key val) = stored rt pd key val.
Proof.
  unfold stored. destruct (dict_lookup pd (VStr key)) as [[| | | | | |ps]|];
    try reflexivity.
  destruct (negb (py_bool (get_or_None ps "type"))) eqn:Ety; cbn [orb].
  - reflexivity.
  - destruct (is_None val) eqn:En; [rewrite En; reflexivity|].
    destruct (coerce_value rt (get_or_None ps "type") val) as [new|e] eqn:Ev.
    + destruct (is_None new); [reflexivity|].
      rewrite (coerce_value_again _ _ _ Ev). reflexivity.
    + rewrite En, Ev. reflexivity.
Qed.

End DeclaredTypes.

(** X10. A conversion that fails never aborts the call, a malformed schema
    does: with [properties] a dict, the call returns when the schema of
    every declared property among the arguments is a dict, and raises
    [AttributeError] as soon as one is not (a boolean, a string, a list),
    because [prop_schema.get("type")] is called outside the [try]. *)
Theorem coerce_parameters_malformed_property
        (self : self_t) (rt : runtime) (sd pd : list (value * value))
        (params : kwargs) (st : state) :
  dict_lookup sd (VStr "properties") = Some (VDict pd) ->
  exists coerced,
    outcome (_coerce_parameters self rt params (VDict sd)) st
    = if declared_dicts pd params then Ok coerced else Raise AttributeError.
Proof.
  intros Hp. destruct (declared_dicts pd params) eqn:Hwf.
  - apply declared_dicts_spec in Hwf. eexists. unfold outcome.
    rewrite (coerce_parameters_computes self rt sd pd params Hp Hwf). reflexivity.
  - exists []. unfold outcome, _coerce_parameters.
    destruct sd as [|kv sd]; [discriminate|]. cbn [py_bool negb].
    cbn [py_contains hashable py_get]. rewrite Hp.
    destruct (coerce_items_malformed self rt pd params Hwf []) as (msgs & Hrun).
    unfold bind at 1, lift at 1. cbn [negb]. unfold bind at 1, lift at 1.
    rewrite Hrun. reflexivity.
Qed.

Lemma coerce_parameters_malformed_property_witness :
  exists coerced,
    outcome (_coerce_parameters unfiltered runtime0 [("n", VInt 1)]
               (VDict [(VStr "properties", VDict [(VStr "n", VBool true)])])) fresh
    = if declared_dicts [(VStr "n", VBool true)] [("n", VInt 1)]
      then Ok coerced else Raise AttributeError.
Proof.
  apply (coerce_parameters_malformed_property
           unfiltered runtime0
           [(VStr "properties", VDict [(VStr "n", VBool true)])]
           [(VStr "n", VBool true)] [("n", VInt 1)] fresh).
  reflexivity.
Defined.

(** Runs of X10: a property whose schema is [True] aborts the call only
    when that parameter is among the arguments. *)
Example coerce_parameters_malformed_run :
  outcome (_coerce_parameters unfiltered runtime0 [("n", VInt 1)]
             (VDict [(VStr "properties", VDict [(VStr "n", VBool true)])])) fresh
  = Raise AttributeError
  /\ outcome (_coerce_parameters unfiltered runtime0 [("m", VInt 1)]
                (VDict [(VStr "properties", VDict [(VStr "n", VBool true)])])) fresh
     = Ok [("m", VInt 1)].
Proof. split; reflexivity. Qed.



(** Runs of X11: ["no"] and ["maybe"] become [False], the number [2]
    becomes [True], the empty list [False]. *)
Example boolean_parameter_runs :
  outcome (_coerce_parameters unfiltered runtime0
             [("a", VStr "no"); ("b", VStr "maybe"); ("c", VInt 2); ("d", VList [])]
             (VDict [(VStr "properties",
                      VDict [(VStr "a", VDict [(VStr "type", VStr "boolean")]);
                             (VStr "b", VDict [(VStr "type", VStr "boolean")]);
                             (VStr "c", VDict [(VStr "type", VStr "boolean")]);
                             (VStr "d", VDict [(VStr "type", VStr "boolean")])])]))
          fresh
  = Ok [("a", VBool false); ("b", VBool false); ("c", VBool true); ("d", VBool false)].
Proof. reflexivity. Qed.





(** X14. Coercion is idempotent: on a schema whose declared properties are
    dicts, coercing the coerced arguments again returns them unchanged. *)
Theorem coerce_parameters_idempotent
        (self : self_t) (rt : runtime) (sd pd : list (value * value))
        (params : kwargs) (st st' : state) :
  dict_lookup sd (VStr "properties") = Some (VDict pd) ->
  declared_as_dicts pd params ->
  List.NoDup (map fst params) ->
  exists coerced,
    outcome (_coerce_parameters self rt params (VDict sd)) st = Ok coerced
    /\ outcome (_coerce_parameters self rt coerced (VDict sd)) st' = Ok coerced.
Proof.
  intros Hp Hwf Hnd. exists (coerced_of rt pd params).
  split; [apply coerce_parameters_coerced_of; assumption|].
  assert (Hkeys : map fst (coerced_of rt pd params) = map fst params)
    by (unfold coerced_of; rewrite map_map; reflexivity).
  rewrite (coerce_parameters_coerced_of self rt sd pd); try assumption.
  - f_equal. unfold coerced_of. rewrite map_map. apply map_ext.
    intros [k v]. cbn [fst snd]. rewrite stored_again. reflexivity.
  - intros key val ps Hin Hps. unfold coerced_of in Hin.
    apply in_map_iff in Hin as ([k v] & E & Hin). cbn [fst snd] in E.
    inversion E as [[Ek Ev]]. rewrite <- Ek in Hps.
    apply (Hwf k v ps Hin Hps).
  - rewrite Hkeys. exact Hnd.
Qed.

Lemma coerce_parameters_idempotent_witness :
  exists coerced,
    outcome (_coerce_parameters unfiltered runtime0 [("n", VStr "42")]
                                (schema_of "n" "integer")) fresh = Ok coerced
    /\ outcome (_coerce_parameters unfiltered runtime0 coerced
                                   (schema_of "n" "integer")) fresh = Ok coerced.
Proof.
  apply (coerce_parameters_idempotent
           unfiltered runtime0
           [(VStr "type", VStr "object");
            (VStr "properties", VDict [(VStr "n", VDict [(VStr "type", VStr "integer")])])]
           [(VStr "n", VDict [(VStr "type", VStr "integer")])]
           [("n", VStr "42")] fresh fresh).
  - reflexivity.
  - intros key val ps [H|[]]. inversion H. subst. simpl. intros E. inversion E.
    reflexivity.
  - constructor; [intros []|constructor].
Defined.

Section Wrapper.
Context (self : self_t) (rt : runtime).








End Wrapper.



(** Runs of X15: a tool without [properties] in its schema gets the
    arguments as they are; an async generator is drained into a list; the
    agent given by position and by keyword is a [TypeError]. *)
Example coercing_entrypoint_runs :
  outcome (coercing_entrypoint unfiltered runtime0
             {| schema := VDict [(VStr "type", VStr "object")];
                original_fn := fun kw => AsyncGen (map snd kw) None |}
             [VStr "the agent"] [("a", VStr "1"); ("b", VInt 2)]) fresh
  = Ok (VList [VStr "1"; VInt 2])
  /\ outcome (coercing_entrypoint unfiltered runtime0
                {| schema := VDict [(VStr "type", VStr "object")];
                   original_fn := fun kw => AsyncGen (map snd kw) None |}
                [VStr "the agent"] [("agent", VNone); ("a", VStr "1")]) fresh
     = Raise TypeError.
Proof. split; reflexivity. Qed.

(** ** The factory functions and the agents *)

Section Rules.
Context (self : self_t).





End Rules.


Lemma toolset_map_prefix (toolset_type : string) :
  get_str toolset_map toolset_type ("sysadmin_" ++ toolset_type)
  = "sysadmin_" ++ toolset_type.
Proof.
  unfold toolset_map. cbn [get_str].
  destruct (String.eqb_spec "discovery" toolset_type) as [<-|_]; [reflexivity|].
  destruct (String.eqb_spec "browse" toolset_type) as [<-|_]; [reflexivity|].
  destruct (String.eqb_spec "search" toolset_type) as [<-|_]; reflexivity.
Qed.

(** X16. The legacy parameter [toolsets] is the rule under the key
    ["toolsets"]: when the caller gives neither [toolsets] nor
    [annotation_filters] of their own, [create_multi_toolset_tools(ts)]
    builds the instance that
    [create_annotation_filtered_tools({"toolsets": ts})] builds, and
    [create_performance_tools()] that of [{"toolsets": ["performance"]}];
    the attribute [toolsets] of the instance holds the list. *)
Theorem legacy_toolsets_is_a_rule (ts : list string) (kw : keywords) :
  kw_toolsets kw = None ->
  kw_annotation_filters kw = None ->
  create_multi_toolset_tools ts kw
  = create_annotation_filtered_tools [("toolsets", Plain (VList (map VStr ts)))] kw
  /\ create_performance_tools kw
     = create_annotation_filtered_tools
         [("toolsets", Plain (VList [VStr "performance"]))] kw
  /\ exists self,
       create_multi_toolset_tools ts kw = Ok self
       /\ annotation_filters self = [("toolsets", Plain (VList (map VStr ts)))]
       /\ toolsets self = Plain (VList (map VStr ts)).
Proof.
  intros Ht Ha.
  unfold create_multi_toolset_tools, create_performance_tools,
    create_annotation_filtered_tools, with_toolsets, with_annotation_filters.
  rewrite Ht, Ha. repeat split. eexists. repeat split.
Qed.

Lemma legacy_toolsets_is_a_rule_witness :
  create_multi_toolset_tools ["performance"; "sysadmin_browse"] (no_keywords "MCPTools")
  = create_annotation_filtered_tools
      [("toolsets", Plain (VList (map VStr ["performance"; "sysadmin_browse"])))]
      (no_keywords "MCPTools")
  /\ create_performance_tools (no_keywords "MCPTools")
     = create_annotation_filtered_tools
         [("toolsets", Plain (VList [VStr "performance"]))] (no_keywords "MCPTools")
  /\ exists self,
       create_multi_toolset_tools ["performance"; "sysadmin_browse"]
                                  (no_keywords "MCPTools") = Ok self
       /\ annotation_filters self
          = [("toolsets", Plain (VList (map VStr ["performance"; "sysadmin_browse"])))]
       /\ toolsets self = Plain (VList (map VStr ["performance"; "sysadmin_browse"])).
Proof.
  apply (legacy_toolsets_is_a_rule ["performance"; "sysadmin_browse"]
                                   (no_keywords "MCPTools")); reflexivity.
Defined.

(** X17. [create_sysadmin_tools] filters on the toolset
    ["sysadmin_" + toolset_type] for every [toolset_type], one of the three
    of its table or not: the table never gives another name than the
    default does. *)
Theorem create_sysadmin_tools_prefix (toolset_type : string) (kw : keywords) :
  kw_toolsets kw = None ->
  kw_annotation_filters kw = None ->
  create_sysadmin_tools toolset_type kw
  = create_annotation_filtered_tools
      [("toolsets", Plain (VList [VStr ("sysadmin_" ++ toolset_type)]))] kw.
Proof.
  intros Ht Ha. unfold create_sysadmin_tools. rewrite toolset_map_prefix.
  unfold create_annotation_filtered_tools, with_toolsets, with_annotation_filters.
  rewrite Ht, Ha. reflexivity.
Qed.

Lemma create_sysadmin_tools_prefix_witness :
  create_sysadmin_tools "browse" (no_keywords "MCPTools")
  = create_annotation_filtered_tools
      [("toolsets", Plain (VList [VStr ("sysadmin_" ++ "browse")]))]
      (no_keywords "MCPTools").
Proof.
  apply (create_sysadmin_tools_prefix "browse" (no_keywords "MCPTools"));
    reflexivity.
Defined.



(** Runs of X18: the performance agent takes a tool tagged
    ["performance"], by a list or by a plain string, and leaves out a tool
    of another toolset and a tool without annotations. *)
Example performance_tools_runs :
  map (fun tool => outcome (_should_include_tool
                              (built (performance_tools false "MCPTools")) tool) fresh)
      [annotated "a" "toolsets" (VList [VStr "performance"]);
       annotated "b" "toolsets" (VStr "performance");
       annotated "c" "toolsets" (VList [VStr "sysadmin_search"]);
       bare "d"]
  = [Ok true; Ok true; Ok false; Ok false].
Proof. reflexivity. Qed.



(** Runs of X19: of a read-only closed-world tool, a destructive tool and
    a tool that declares no hint, only the first is safe. *)
Example safe_tools_runs :
  map (fun tool => outcome (_should_include_tool
                              (built (create_safe_tools (no_keywords "MCPTools")))
                              tool) fresh)
      [hinted "read" true false false;
       hinted "drop" false true false;
       bare "unknown"]
  = [Ok true; Ok false; Ok false].
Proof. reflexivity. Qed.



(** Runs of X20: ["System Status"] passes, ["Memory pools"] does not, and
    a performance tool without a title does not either. *)
Example system_performance_tools_runs :
  map (fun tool => outcome (_should_include_tool
                              (built (create_system_performance_tools
                                        (no_keywords "MCPTools")))
                              tool) fresh)
      [titled "system_status" ["performance"] "System Status";
       titled "memory_pools" ["performance"] "Memory pools";
       titled "system_values" ["sysadmin_browse"] "System values";
       annotated "untitled" "toolsets" (VList [VStr "performance"])]
  = [Ok true; Ok false; Ok false; Ok false].
Proof. reflexivity. Qed.

(** ** Agent identifiers and agent configuration *)

Lemma from_agent_id_known (s : string) :
  match from_agent_id s with
  | Ok member => member_value member = s /\ name_in s all_ids = true
  | Raise e => e = ValueError /\ name_in s all_ids = false
  end.
Proof.
  unfold from_agent_id, all_ids, members, name_in.
  cbn [first_with_value map existsb member_value].
  rewrite !(String.eqb_sym s).
  destruct (String.eqb_spec "ibmi-performance-monitor" s) as [<-|_];
    [split; reflexivity|].
  destruct (String.eqb_spec "ibmi-sysadmin-discovery" s) as [<-|_];
    [split; reflexivity|].
  destruct (String.eqb_spec "ibmi-sysadmin-browse" s) as [<-|_];
    [split; reflexivity|].
  destruct (String.eqb_spec "ibmi-sysadmin-search" s) as [<-|_];
    split; reflexivity.
Qed.

Lemma member_value_known (member : AgentID) :
  name_in (member_value member) all_ids = true.
Proof. destruct member; reflexivity. Qed.

(** X21. [from_agent_id] is the inverse of [.value]: it gives back the
    member whose value it is handed, the member it returns has the string
    as its value, and it raises [ValueError] exactly on the strings that
    are not in [all_ids()]. *)
Theorem from_agent_id_inverts_value :
  (forall member, from_agent_id (member_value member) = Ok member)
  /\ (forall s member, from_agent_id s = Ok member <-> member_value member = s)
  /\ (forall s, from_agent_id s = Raise ValueError <-> ~ In s all_ids).
Proof.
  assert (Hround : forall member, from_agent_id (member_value member) = Ok member)
    by (intros []; reflexivity).
  split; [exact Hround|]. split.
  - intros s member. split.
    + intros H. pose proof (from_agent_id_known s) as K. rewrite H in K.
      exact (proj1 K).
    + intros <-. apply Hround.
  - intros s. pose proof (from_agent_id_known s) as K.
    assert (Hin : name_in s all_ids = true <-> In s all_ids).
    { unfold name_in. rewrite existsb_exists. split.
      - intros (x & Hx & E). apply String.eqb_eq in E. subst. exact Hx.
      - intros Hx. exists s. split; [exact Hx|apply String.eqb_refl]. }
    destruct (from_agent_id s) as [member|e]; destruct K as (K1 & K2).
    + split; [discriminate|]. intros Hn. exfalso. apply Hn, Hin, K2.
    + subst e. split; [|reflexivity]. intros _ Hx. apply Hin in Hx. congruence.
Qed.

(** X22. An agent the configuration says nothing about gets the defaults
    of [AgentModelConfig], not the values of the caller: when the manager
    has no [agents] section, or no data for the agent,
    [apply_agent_config] returns the model it was given with
    [debug_mode=False] and [enable_reasoning=True], whatever [debug_mode]
    and [enable_reasoning] it was called with. *)
Theorem apply_agent_config_without_entry
        {Model : Type} (model_validate : value -> result Config.AgentModelConfig)
        (agent_id : AgentID) (manager : Config.AgentConfigManager)
        (m : string + Model) (debug reasoning : bool) :
  (forall section,
      Config.agents manager = Some section ->
      py_bool (Config.agent_data_of section (member_value agent_id)) = false) ->
  Config.apply_agent_config model_validate agent_id (Some manager) m debug reasoning
  = Ok (m, false, true).
Proof.
  intros H. unfold Config.apply_agent_config, Config.get_agent_config.
  cbn [Config.id_string]. rewrite member_value_known. cbn [negb].
  destruct (Config.agents manager) as [section|]; [|reflexivity].
  rewrite (H section eq_refl). reflexivity.
Qed.

Lemma apply_agent_config_without_entry_witness :
  Config.apply_agent_config
    (fun _ => Raise ValueError) IBMI_SYSADMIN_BROWSE
    (Some {| Config.agents :=
               Some {| Config.default_model := Some "watsonx:llama";
                       Config.model_extra :=
                         Some [(VStr "ibmi-performance-monitor",
                                VDict [(VStr "debug_mode", VBool true)])] |} |})
    (inl "openai:gpt-4o" : string + unit) true false
  = Ok (inl "openai:gpt-4o", false, true).
Proof.
  apply (apply_agent_config_without_entry
           (fun _ => Raise ValueError) IBMI_SYSADMIN_BROWSE
           {| Config.agents :=
                Some {| Config.default_model := Some "watsonx:llama";
                        Config.model_extra :=
                          Some [(VStr "ibmi-performance-monitor",
                                 VDict [(VStr "debug_mode", VBool true)])] |} |}
           (inl "openai:gpt-4o" : string + unit) true false).
  intros section H. inversion H. reflexivity.
Defined.

(** X23. [get_agent_model] accepts the identifiers [from_agent_id]
    accepts, and only those: on a member of [AgentID] or on the value of
    one it returns a model that is never empty (the agent's own, else the
    section's default, else ["openai:gpt-4o"]); on any other string it
    raises [ValueError]. *)
Theorem get_agent_model_never_empty
        (self : Config.AgentConfigManager) (agent_id : AgentID + string) :
  match from_agent_id (Config.id_string agent_id) with
  | Ok _ => exists m, Config.get_agent_model self agent_id = Ok m /\ py_bool m = true
  | Raise _ => Config.get_agent_model self agent_id = Raise ValueError
  end.
Proof.
  pose proof (from_agent_id_known (Config.id_string agent_id)) as K.
  unfold Config.get_agent_model.
  destruct (from_agent_id (Config.id_string agent_id)) as [member|e];
    destruct K as (_ & K); rewrite K; cbn [negb]; [|reflexivity].
  destruct (Config.agents self) as [section|]; [|eexists; split; reflexivity].
  assert (Hfb : py_bool match Config.default_model section with
                        | Some m => if String.eqb m "" then VStr "openai:gpt-4o"
                                    else VStr m
                        | None => VStr "openai:gpt-4o"
                        end = true).
  { destruct (Config.default_model section) as [[|c m]|]; reflexivity. }
  destruct (Config.agent_data_of section (Config.id_string agent_id))
    as [| | | | | |d]; try (eexists; split; [reflexivity|exact Hfb]).
  destruct (py_bool (VDict d)); [|eexists; split; [reflexivity|exact Hfb]].
  destruct (py_bool match dict_lookup d (VStr "model") with
                    | Some x => x
                    | None => VNone
                    end) eqn:E; eexists; split; try reflexivity; assumption.
Qed.

(** X24. Where the model of an agent comes from: with data for the agent
    that validates, [apply_agent_config] returns the agent's own model if
    it is given and not empty, else the [default_model] of the section if
    that is, else the model of the caller; [debug_mode] and
    [enable_reasoning] are those of the validated data, the caller's only
    where the data has [None]. *)
Theorem apply_agent_config_precedence
        {Model : Type} (model_validate : value -> result Config.AgentModelConfig)
        (agent_id : AgentID) (manager : Config.AgentConfigManager)
        (section : Config.AgentsConfig) (c : Config.AgentModelConfig)
        (m : string + Model) (debug reasoning : bool) :
  Config.agents manager = Some section ->
  py_bool (Config.agent_data_of section (member_value agent_id)) = true ->
  model_validate (Config.agent_data_of section (member_value agent_id)) = Ok c ->
  Config.apply_agent_config model_validate agent_id (Some manager) m debug reasoning
  = Ok (match first_given [Config.model c; Config.default_model section] with
        | Some s => inl s
        | None => m
        end,
        match Config.debug_mode c with Some b => b | None => debug end,
        match Config.enable_reasoning c with Some b => b | None => reasoning end).
Proof.
  intros Hs Hd Hv. unfold Config.apply_agent_config, Config.get_agent_config.
  cbn [Config.id_string]. rewrite member_value_known, Hs. cbn [negb].
  rewrite Hd, Hv. cbn [negb rbind first_given].
  unfold Config.str_bool.
  destruct c as [[s|] reasoning' debug']; cbn [Config.model];
    [destruct (String.eqb s "") eqn:Es|];
    cbn [negb andb];
    try (destruct (Config.default_model section) as [s'|];
         [destruct (String.eqb s' "") eqn:Es'|]);
    cbn [negb rbind Config.with_model Config.model Config.debug_mode
              Config.enable_reasoning];
    rewrite ?Es, ?Es'; reflexivity.
Qed.

Lemma apply_agent_config_precedence_witness :
  Config.apply_agent_config
    (fun _ => Ok {| Config.model := None; Config.enable_reasoning := Some true;
                    Config.debug_mode := Some true |})
    IBMI_PERFORMANCE_MONITOR
    (Some {| Config.agents :=
               Some {| Config.default_model := Some "watsonx:llama";
                       Config.model_extra :=
                         Some [(VStr "ibmi-performance-monitor",
                                VDict [(VStr "debug_mode", VBool true)])] |} |})
    (inl "openai:gpt-4o" : string + unit) false false
  = Ok (inl "watsonx:llama", true, true).
Proof.
  apply (apply_agent_config_precedence
           (fun _ => Ok {| Config.model := None; Config.enable_reasoning := Some true;
                           Config.debug_mode := Some true |})
           IBMI_PERFORMANCE_MONITOR
           {| Config.agents :=
                Some {| Config.default_model := Some "watsonx:llama";
                        Config.model_extra :=
                          Some [(VStr "ibmi-performance-monitor",
                                 VDict [(VStr "debug_mode", VBool true)])] |} |}
           {| Config.default_model := Some "watsonx:llama";
              Config.model_extra :=
                Some [(VStr "ibmi-performance-monitor",
                       VDict [(VStr "debug_mode", VBool true)])] |}
           {| Config.model := None; Config.enable_reasoning := Some true;
              Config.debug_mode := Some true |}
           (inl "openai:gpt-4o" : string + unit) false false); reflexivity.
Defined.

(** X25. [get_agent_config] raises [ValueError] on every string that is
    not the value of a member of [AgentID], before it reads the
    configuration; on a member of [AgentID] it fails only where the
    validation of the agent's data fails, and with that error. *)
Theorem get_agent_config_identifiers
        (model_validate : value -> result Config.AgentModelConfig)
        (self : Config.AgentConfigManager) :
  (forall s, ~ In s all_ids ->
             Config.get_agent_config model_validate self (inr s) = Raise ValueError)
  /\ (forall member e,
         Config.get_agent_config model_validate self (inl member) = Raise e ->
         exists section,
           Config.agents self = Some section
           /\ model_validate (Config.agent_data_of section (member_value member))
              = Raise e).
Proof.
  split.
  - intros s Hs. unfold Config.get_agent_config. cbn [Config.id_string].
    destruct (name_in s all_ids) eqn:E; [|reflexivity].
    exfalso. apply Hs. unfold name_in in E. apply existsb_exists in E as (x & Hx & E).
    apply String.eqb_eq in E. subst. exact Hx.
  - intros member e. unfold Config.get_agent_config. cbn [Config.id_string].
    rewrite member_value_known. cbn [negb].
    destruct (Config.agents self) as [section|]; [|discriminate].
    destruct (py_bool (Config.agent_data_of section (member_value member)));
      cbn [negb]; [|discriminate].
    destruct (model_validate _) as [c|e'] eqn:Ev; cbn [rbind].
    + destruct (negb _ && _); discriminate.
    + intros H. inversion H. subst. exists section. split; reflexivity || exact Ev.
Qed.
